(** * Quest_Deployment: the shared camera stream manager and the QR scanner widget

    A shallow embedding of [quest-app/src/lib/cameraStreamManager.ts] and of
    the [QRScanner] component variants.  Asynchronous functions are modelled
    as coroutines: a program counter names the [await] at which a call is
    suspended, and one step runs a call from one suspension point to the
    next, which is the granularity at which the JavaScript event loop
    interleaves tasks.  The browser and the decode engine are oracles. *)

From stdpp Require Import base list strings.
From Stdlib Require Import ZArith Lia.

Open Scope Z_scope.

(* ===================================================================== *)
(** * Part I: definitions *)
(* ===================================================================== *)

(** ** Browser media objects *)

Inductive TrackKind := VideoTrack | AudioTrack.
Inductive ReadyState := Live | Ended.

(** A [MediaStreamTrack].  [stopped] records that [track.stop()] was called,
    which is what gives the device handle back. *)
Record Track := mkTrack {
  kind : TrackKind;
  readyState : ReadyState;
  stopped : bool
}.

Definition is_video (t : Track) : bool :=
  match kind t with VideoTrack => true | AudioTrack => false end.

Definition is_live (t : Track) : bool :=
  match readyState t with Live => true | Ended => false end.

(** [track.stop()] *)
Definition stop (t : Track) : Track :=
  {| kind := kind t; readyState := Ended; stopped := true |}.

(** [stream.getVideoTracks()] *)
Definition getVideoTracks (ts : list Track) : list Track :=
  List.filter is_video ts.

(** The [MediaStream] objects created so far; a stream is referred to by its
    position, so that two holders of the same stream see the same tracks. *)
Abbreviation Heap := (list (list Track)).

(** [stream.getTracks().forEach(track => track.stop())] *)
Definition stop_all (s : nat) (h : Heap) : Heap := alter (map stop) s h.

(** A stream still holds a device when one of its tracks was never stopped. *)
Definition is_open (ts : list Track) : bool :=
  existsb (fun t => negb (stopped t)) ts.

Definition open_streams (h : Heap) : nat := length (List.filter is_open h).

(** ** Constraints handed to [getUserMedia] *)

Inductive FacingMode :=
| Facing (mode : string)         (* facingMode: 'environment' *)
| FacingIdeal (mode : string)    (* facingMode: { ideal: 'environment' } *)
| FacingExact (mode : string).   (* facingMode: { exact: 'environment' } *)

Record Range := mkRange { ideal : option Z; max : option Z }.

Record VideoConstraints := mkVideo {
  facingMode : option FacingMode;
  width : option Range;
  height : option Range;
  frameRate : option Range
}.

Inductive MediaStreamConstraints :=
| VideoTrue                              (* { video: true } *)
| Video (v : VideoConstraints).          (* { video: { ... } } *)

(** Which camera an option asks for, as the specification names them. *)
Inductive Choice :=
| RearCamera          (* facingMode: 'environment' *)
| RearCameraIdeal     (* facingMode: { ideal: 'environment' } *)
| RearCameraExact     (* facingMode: { exact: 'environment' } *)
| FrontCamera         (* facingMode: 'user' *)
| AnyCamera           (* no facingMode *)
| OtherCamera.

Definition choice_of_facing (f : option FacingMode) : Choice :=
  match f with
  | None => AnyCamera
  | Some (Facing mode) =>
      if String.eqb mode "environment" then RearCamera
      else if String.eqb mode "user" then FrontCamera else OtherCamera
  | Some (FacingIdeal mode) =>
      if String.eqb mode "environment" then RearCameraIdeal else OtherCamera
  | Some (FacingExact mode) =>
      if String.eqb mode "environment" then RearCameraExact else OtherCamera
  end.

Definition choice (c : MediaStreamConstraints) : Choice :=
  match c with
  | VideoTrue => AnyCamera
  | Video v => choice_of_facing (facingMode v)
  end.

#[global] Instance Choice_eq_dec : EqDecision Choice.
Proof. solve_decision. Defined.

(** Neighbouring options asking for the same camera count once. *)
Fixpoint collapse (l : list Choice) : list Choice :=
  match l with
  | x :: l' =>
      match l' with
      | y :: _ => if bool_decide (x = y) then collapse l' else x :: collapse l'
      | [] => [x]
      end
  | [] => []
  end.

(** The order the specification gives: rear camera (the bare
    ['environment'] that the widget's comments call exact), ideal rear
    camera, front camera, unconstrained. *)
Definition claimed_order : list Choice :=
  [RearCamera; RearCameraIdeal; FrontCamera; AnyCamera].

Definition follows_claimed_order (cs : list Choice) : Prop :=
  collapse cs = claimed_order.

(** What a [getUserMedia] promise settles to. *)
Inductive Response :=
| Resolved (tracks : list Track)
| Rejected (message : string).

(** ** lib/cameraStreamManager.ts *)

Module CameraStreamManager.

(** The three module-level variables, the stream objects, and a record of
    the hardware requests made (which call made them, with what). *)
Record Manager := mkManager {
  stream : option nat;
  usageCount : Z;
  isInitializing : bool;
  heap : Heap;
  requests : list (nat * MediaStreamConstraints)
}.

Definition initial : Manager :=
  {| stream := None; usageCount := 0; isInitializing := false;
     heap := []; requests := [] |}.

Definition set_stream (s : option nat) (m : Manager) : Manager :=
  {| stream := s; usageCount := usageCount m;
     isInitializing := isInitializing m; heap := heap m;
     requests := requests m |}.

Definition set_usageCount (n : Z) (m : Manager) : Manager :=
  {| stream := stream m; usageCount := n;
     isInitializing := isInitializing m; heap := heap m;
     requests := requests m |}.

Definition set_isInitializing (b : bool) (m : Manager) : Manager :=
  {| stream := stream m; usageCount := usageCount m;
     isInitializing := b; heap := heap m; requests := requests m |}.

Definition set_heap (h : Heap) (m : Manager) : Manager :=
  {| stream := stream m; usageCount := usageCount m;
     isInitializing := isInitializing m; heap := h;
     requests := requests m |}.

Definition add_request (r : nat * MediaStreamConstraints) (m : Manager) : Manager :=
  {| stream := stream m; usageCount := usageCount m;
     isInitializing := isInitializing m; heap := heap m;
     requests := requests m ++ [r] |}.

(** The browser: whether [navigator.mediaDevices.getUserMedia] exists, and
    what the n-th [getUserMedia] request settles to. *)
Record Env := mkEnv {
  supported : bool;
  getUserMedia : nat -> MediaStreamConstraints -> Response
}.

(** First version of the file: rear camera first. *)
Definition constraintOptions : list MediaStreamConstraints :=
  [ Video {| facingMode := Some (Facing "environment");
             width := Some (mkRange (Some 1280) (Some 1920));
             height := Some (mkRange (Some 720) (Some 1080));
             frameRate := Some (mkRange (Some 30) (Some 60)) |};
    Video {| facingMode := Some (FacingIdeal "environment");
             width := Some (mkRange (Some 640) (Some 1280));
             height := Some (mkRange (Some 480) (Some 720));
             frameRate := None |};
    Video {| facingMode := Some (Facing "user");
             width := Some (mkRange (Some 640) None);
             height := Some (mkRange (Some 480) None);
             frameRate := None |};
    Video {| facingMode := None;
             width := Some (mkRange (Some 640) None);
             height := Some (mkRange (Some 480) None);
             frameRate := None |};
    VideoTrue ].

(** Second version of the file: the most compatible option first. *)
Definition constraintOptions' : list MediaStreamConstraints :=
  [ VideoTrue;
    Video {| facingMode := None;
             width := Some (mkRange (Some 640) None);
             height := Some (mkRange (Some 480) None);
             frameRate := None |};
    Video {| facingMode := Some (Facing "user");
             width := Some (mkRange (Some 640) None);
             height := Some (mkRange (Some 480) None);
             frameRate := None |};
    Video {| facingMode := Some (FacingIdeal "environment");
             width := Some (mkRange (Some 640) None);
             height := Some (mkRange (Some 480) None);
             frameRate := None |} ].

Inductive Outcome :=
| Returned (s : nat)        (* the promise resolved with this stream *)
| Threw (message : string). (* the promise rejected with this Error *)

(** Where a call of [getCameraStream] is suspended. *)
Inductive Task :=
| NotCalled
| Polling                                   (* await setTimeout(100) *)
| AwaitEnumerate                            (* await enumerateDevices() *)
| AwaitGetUserMedia (i : nat) (req : nat) (lastError : option string)
| Finished (o : Outcome).

(** [lastError?.message || 'Unknown error'] *)
Definition last_message (lastError : option string) : string :=
  match lastError with
  | Some (String c s) => String c s
  | _ => "Unknown error"
  end.

(** The test made on a stream that [getUserMedia] delivered. *)
Definition is_working (ts : list Track) : bool :=
  (0 <? length ts)%nat &&
  match getVideoTracks ts with
  | videoTrack :: _ => is_live videoTrack
  | [] => false
  end.

(** [if (stream) { stream.getTracks().forEach(track => track.stop()); stream = null; }] *)
Definition discard (m : Manager) : Manager :=
  match stream m with
  | Some s => set_stream None (set_heap (stop_all s (heap m)) m)
  | None => m
  end.

Section Acquire.

Variable opts : list MediaStreamConstraints.
Variable env : Env.
Variable self : nat.   (* the calling task, for the request record only *)

(** After the loop: throw through the outer [catch], or fall out of the
    [try]; [finally] clears the flag; then [usageCount++; return stream]. *)
Definition after_loop (lastError : option string) (m : Manager) : Task * Manager :=
  match stream m with
  | None =>
      (Finished (Threw ("Camera access failed: " +:+
                        "All camera initialization attempts failed. Last error: " +:+
                        last_message lastError)),
       set_isInitializing false m)
  | Some s =>
      (Finished (Returned s),
       set_usageCount (usageCount m + 1) (set_isInitializing false m))
  end.

(** Loop test and the start of iteration [i]. *)
Definition loop_head (i : nat) (lastError : option string) (m : Manager)
  : Task * Manager :=
  match opts !! i with
  | Some c => (AwaitGetUserMedia i (length (requests m)) lastError,
               add_request (self, c) m)
  | None => after_loop lastError m
  end.

(** The rest of iteration [i] once its [getUserMedia] has settled. *)
Definition on_response (i : nat) (lastError : option string) (r : Response)
    (m : Manager) : Task * Manager :=
  match r with
  | Resolved ts =>
      let s := length (heap m) in
      let m1 := set_stream (Some s) (set_heap (heap m ++ [ts]) m) in
      if is_working ts then after_loop lastError m1
      else loop_head (S i) lastError (discard m1)
  | Rejected msg =>
      loop_head (S i) (Some msg) (discard m)
  end.

(** [if (!stream) { isInitializing = true; try { ...] up to the first await.
    The outcome of [enumerateDevices] is only logged: its rejection and the
    "No video input devices found" error are both caught by the inner
    [catch], so the call continues with the loop in every case. *)
Definition acquire_or_reuse (m : Manager) : Task * Manager :=
  match stream m with
  | None =>
      if supported env then (AwaitEnumerate, set_isInitializing true m)
      else (Finished (Threw ("Camera access failed: " +:+
                             "Camera not supported in this browser")),
            set_isInitializing false m)
  | Some s => (Finished (Returned s), set_usageCount (usageCount m + 1) m)
  end.

(** One turn of the polling loop and what follows it. *)
Definition poll (m : Manager) : Task * Manager :=
  if isInitializing m then (Polling, m)
  else match stream m with
       | Some s => (Finished (Returned s), m)     (* if (stream) return stream; *)
       | None => acquire_or_reuse m
       end.

(** Run a call from where it is suspended to its next suspension. *)
Definition resume (t : Task) (m : Manager) : Task * Manager :=
  match t with
  | NotCalled => if isInitializing m then (Polling, m) else acquire_or_reuse m
  | Polling => poll m
  | AwaitEnumerate => loop_head 0%nat None m
  | AwaitGetUserMedia i req lastError =>
      match requests m !! req with
      | Some (_, c) => on_response i lastError (getUserMedia env req c) m
      | None => (t, m)
      end
  | Finished _ => (t, m)
  end.

End Acquire.

(** [releaseCameraStream] *)
Definition releaseCameraStream (m : Manager) : Manager :=
  let m1 := set_usageCount (Z.max (usageCount m - 1) 0) m in
  match stream m1 with
  | Some s =>
      if usageCount m1 =? 0
      then set_stream None (set_heap (stop_all s (heap m1)) m1)
      else m1
  | None => m1
  end.

Definition getCameraUsageCount (m : Manager) : Z := usageCount m.

Definition isStreamActive (m : Manager) : bool :=
  bool_decide (stream m <> None) && negb (isInitializing m).

(** Several calls in flight on the one event loop. *)
Record World := mkWorld { mgr : Manager; tasks : list Task }.

Inductive Action :=
| Run (t : nat)     (* the event loop resumes call [t] *)
| Release.          (* somebody calls [releaseCameraStream()] *)

Definition act (opts : list MediaStreamConstraints) (env : Env)
    (a : Action) (w : World) : World :=
  match a with
  | Run t =>
      match tasks w !! t with
      | Some k =>
          let '(k', m') := resume opts env t k (mgr w) in
          {| mgr := m'; tasks := <[t := k']> (tasks w) |}
      | None => w
      end
  | Release => {| mgr := releaseCameraStream (mgr w); tasks := tasks w |}
  end.

Definition exec (opts : list MediaStreamConstraints) (env : Env)
    (sched : list Action) (w : World) : World :=
  fold_left (fun w a => act opts env a w) sched w.

Definition start (n : nat) : World :=
  {| mgr := initial; tasks := replicate n NotCalled |}.

(** A call awaited to its end before anything else runs. *)
Fixpoint run_alone (opts : list MediaStreamConstraints) (env : Env)
    (fuel : nat) (t : Task) (m : Manager) : Task * Manager :=
  match fuel with
  | O => (t, m)
  | S fuel' =>
      match t with
      | Finished _ => (t, m)
      | _ => let '(t', m') := resume opts env 0%nat t m in
             run_alone opts env fuel' t' m'
      end
  end.

Definition getCameraStream (opts : list MediaStreamConstraints) (env : Env)
    (m : Manager) : Task * Manager :=
  run_alone opts env (length opts + 2) NotCalled m.

(** *** Vocabulary for statements about one acquisition *)

(** What the browser answers to the options [cs], asked one after the
    other from request number [base] on. *)
Fixpoint responses (env : Env) (base : nat) (cs : list MediaStreamConstraints)
  : list Response :=
  match cs with
  | [] => []
  | c :: cs' => getUserMedia env base c :: responses env (S base) cs'
  end.

(** An answer that does not give a stream with a live video track. *)
Definition unusable (r : Response) : bool :=
  match r with
  | Resolved ts => negb (is_working ts)
  | Rejected _ => true
  end.

(** The stream objects of the answers [rs], every track stopped. *)
Definition discarded (rs : list Response) : Heap :=
  flat_map (fun r => match r with
                     | Resolved ts => [map stop ts]
                     | Rejected _ => []
                     end) rs.

(** The message of the last rejection among [rs], if any. *)
Definition last_rejection (lastError : option string) (rs : list Response)
  : option string :=
  fold_left (fun e r => match r with
                        | Rejected msg => Some msg
                        | Resolved _ => e
                        end) rs lastError.

(** The manager after the options [cs] were tried and answered by [rs],
    none of them usable. *)
Definition after_failures (self : nat) (cs : list MediaStreamConstraints)
    (rs : list Response) (m : Manager) : Manager :=
  {| stream := None; usageCount := usageCount m;
     isInitializing := isInitializing m;
     heap := heap m ++ discarded rs;
     requests := requests m ++ map (pair self) cs |}.

Definition run_pair (opts : list MediaStreamConstraints) (env : Env)
    (fuel : nat) (p : Task * Manager) : Task * Manager :=
  run_alone opts env fuel (fst p) (snd p).

Definition all_stopped (ts : list Track) : Prop :=
  Forall (fun t => stopped t = true) ts.

(** *** Vocabulary for statements about interleaved calls *)

(** The call is inside [if (!stream) { isInitializing = true; try { ... ]. *)
Definition in_block (t : Task) : bool :=
  match t with
  | AwaitEnumerate | AwaitGetUserMedia _ _ _ => true
  | _ => false
  end.

Definition weight (t : Task) : nat := if in_block t then 1%nat else 0%nat.

(** How many calls have an acquisition in flight. *)
Definition busy (ts : list Task) : nat := sum_list_with weight ts.

(** What holds of the manager between any two steps of the event loop,
    [n] being the number of acquisitions in flight. *)
Record coherent (n : nat) (m : Manager) : Prop := mkCoherent {
  at_most_one : (n <= 1)%nat;
  flag_exact : isInitializing m = (0 <? n)%nat;
  null_while_busy : isInitializing m = true -> stream m = None;
  only_held_open : forall r ts,
      heap m !! r = Some ts -> is_open ts = true -> stream m = Some r;
  count_nonneg : 0 <= usageCount m
}.

Definition sound (w : World) : Prop := coherent (busy (tasks w)) (mgr w).



(** *** Vocabulary for statements about accounting *)

(** A stream is held exactly when somebody is counted as using it. *)
Definition counted (m : Manager) : Prop :=
  stream m = None <-> usageCount m = 0.

(** Nothing is being acquired. *)
Definition idle (m : Manager) : Prop := isInitializing m = false.

(** [n] calls of [releaseCameraStream()]. *)
Definition release_times (n : nat) (m : Manager) : Manager :=
  Nat.iter n releaseCameraStream m.

(** [n] calls of [getCameraStream()], each awaited before the next. *)
Definition acquire_times (opts : list MediaStreamConstraints) (env : Env)
    (n : nat) (m : Manager) : Manager :=
  Nat.iter n (fun m => snd (getCameraStream opts env m)) m.

(** *** Browsers and schedules used in the examples *)

Definition liveTrack : Track := mkTrack VideoTrack Live false.
Definition endedTrack : Track := mkTrack VideoTrack Ended false.

(** Every request is granted with one live video track. *)
Definition browser_ok : Env :=
  {| supported := true; getUserMedia := fun _ _ => Resolved [liveTrack] |}.

(** The first five requests are refused, later ones are granted. *)
Definition browser_late : Env :=
  {| supported := true;
     getUserMedia := fun n _ =>
       if (n <? 5)%nat then Rejected "Permission denied"
       else Resolved [liveTrack] |}.

(** No request ever gives a live video track. *)
Definition browser_never : Env :=
  {| supported := true;
     getUserMedia := fun n _ =>
       match n with
       | 1%nat => Resolved [endedTrack]
       | 4%nat => Rejected "Requested device not found"
       | _ => Rejected "Permission denied"
       end |}.

(** Call 0 starts acquiring, call 1 arrives and polls, call 0 gets its
    stream from the first option, call 1 polls again. *)
Definition overlapping_calls : list Action :=
  [Run 0%nat; Run 1%nat; Run 0%nat; Run 0%nat; Run 1%nat].


End CameraStreamManager.

(** ** The two-option stream manager (the copy kept after the widget in
    the third unnamed source file) *)

Module CameraStreamManagerTwoOptions.

Import CameraStreamManager.

Definition constraints : MediaStreamConstraints :=
  Video {| facingMode := Some (Facing "environment");
           width := Some (mkRange (Some 1280) (Some 1920));
           height := Some (mkRange (Some 720) (Some 1080));
           frameRate := Some (mkRange (Some 30) (Some 60)) |}.

Definition fallbackConstraints : MediaStreamConstraints :=
  Video {| facingMode := Some (FacingIdeal "environment");
           width := Some (mkRange (Some 640) None);
           height := Some (mkRange (Some 480) None);
           frameRate := None |}.

Inductive Task :=
| NotCalled
| Polling
| AwaitPrimary (req : nat)                     (* getUserMedia(constraints) *)
| AwaitFallback (req : nat) (error : string)   (* getUserMedia(fallbackConstraints) *)
| Finished (o : Outcome).

Section Acquire.

Variable env : Env.
Variable self : nat.

(** [finally { isInitializing = false; } ... usageCount++; return stream;]
    with [stream] just assigned the new object holding [ts]. *)
Definition keep (ts : list Track) (m : Manager) : Task * Manager :=
  let s := length (heap m) in
  (Finished (Returned s),
   set_usageCount (usageCount m + 1)
     (set_isInitializing false
        (set_stream (Some s) (set_heap (heap m ++ [ts]) m)))).

(** Without [getUserMedia] the first [throw] lands in the [catch], whose own
    [getUserMedia] call throws as well, so the first message is rethrown. *)
Definition acquire_or_reuse (m : Manager) : Task * Manager :=
  match stream m with
  | None =>
      if supported env
      then (AwaitPrimary (length (requests m)),
            add_request (self, constraints) (set_isInitializing true m))
      else (Finished (Threw ("Camera access failed: " +:+
                             "Camera not supported in this browser")),
            set_isInitializing false m)
  | Some s => (Finished (Returned s), set_usageCount (usageCount m + 1) m)
  end.

Definition resume (t : Task) (m : Manager) : Task * Manager :=
  match t with
  | NotCalled => if isInitializing m then (Polling, m) else acquire_or_reuse m
  | Polling =>
      if isInitializing m then (Polling, m)
      else match stream m with
           | Some s => (Finished (Returned s), m)
           | None => acquire_or_reuse m
           end
  | AwaitPrimary req =>
      match requests m !! req with
      | Some (_, c) =>
          match getUserMedia env req c with
          | Resolved ts =>
              if (length ts =? 0)%nat
              then (* throw new Error('No camera tracks available') *)
                let m1 := set_stream (Some (length (heap m)))
                            (set_heap (heap m ++ [ts]) m) in
                (AwaitFallback (length (requests m1)) "No camera tracks available",
                 add_request (self, fallbackConstraints) m1)
              else keep ts m
          | Rejected msg =>
              (AwaitFallback (length (requests m)) msg,
               add_request (self, fallbackConstraints) m)
          end
      | None => (t, m)
      end
  | AwaitFallback req error =>
      match requests m !! req with
      | Some (_, c) =>
          match getUserMedia env req c with
          | Resolved ts => keep ts m
          | Rejected _ =>
              (Finished (Threw ("Camera access failed: " +:+ error)),
               set_isInitializing false m)
          end
      | None => (t, m)
      end
  | Finished _ => (t, m)
  end.

End Acquire.

Fixpoint run_alone (env : Env) (fuel : nat) (t : Task) (m : Manager)
  : Task * Manager :=
  match fuel with
  | O => (t, m)
  | S fuel' =>
      match t with
      | Finished _ => (t, m)
      | _ => let '(t', m') := resume env 0%nat t m in
             run_alone env fuel' t' m'
      end
  end.

Definition getCameraStream (env : Env) (m : Manager) : Task * Manager :=
  run_alone env 3 NotCalled m.

(** The answer to the first request of a call made on [m], and to its
    second. *)
Definition primary (env : Env) (m : Manager) : Response :=
  getUserMedia env (length (requests m)) constraints.

Definition fallback (env : Env) (m : Manager) : Response :=
  getUserMedia env (S (length (requests m))) fallbackConstraints.

(** The first request gives a stream without tracks, the second is
    refused. *)
Definition browser_trackless : Env :=
  {| supported := true;
     getUserMedia := fun n _ =>
       match n with
       | 0%nat => Resolved []
       | _ => Rejected "Permission denied"
       end |}.

(** The first request is refused for lack of permission, the second
    because no device matches. *)
Definition browser_two_refusals : Env :=
  {| supported := true;
     getUserMedia := fun n _ =>
       match n with
       | 0%nat => Rejected "Permission denied"
       | _ => Rejected "Requested device not found"
       end |}.

(** The browser hands over a stream whose only video track has ended. *)
Definition browser_stale : Env :=
  {| supported := true; getUserMedia := fun _ _ => Resolved [endedTrack] |}.

End CameraStreamManagerTwoOptions.

(** ** The decode engine (html5-qrcode), seen from the widget *)

Inductive Html5QrcodeScannerState := UNKNOWN | NOT_STARTED | SCANNING | PAUSED.

(** An [Html5Qrcode] object: its state, whether [clear()] went through, and
    the activation whose callbacks the running scan was started with. *)
Record Html5Qrcode := mkEngine {
  state : Html5QrcodeScannerState;
  cleared : bool;
  listener : option nat
}.

Definition new_Html5Qrcode : Html5Qrcode :=
  {| state := NOT_STARTED; cleared := false; listener := None |}.

(** [state === SCANNING || state === PAUSED] *)
Definition scanning_or_paused (st : Html5QrcodeScannerState) : bool :=
  match st with
  | SCANNING | PAUSED => true
  | _ => false
  end.

(** A value caught by [catch]: an [Error] with its message, or something
    that is not an [Error] (the engine rejects with plain strings too). *)
Inductive Thrown :=
| ErrorObject (message : string)
| OtherValue (truthy : bool).

(** How [start()] and [stop()] settle; a failed call leaves the engine in
    the state given. *)
Inductive StartResult :=
| Started
| StartFailed (reason : Thrown) (left_in : Html5QrcodeScannerState).

Inductive StopResult :=
| Stopped
| StopFailed (left_in : Html5QrcodeScannerState).

(** The engine's full decode result. *)
Record DecodeResult := mkResult { decodedText : string; formatName : string }.

(** The three callbacks of [QRScannerProps]. *)
Inductive Callback :=
| onScannerInit (success : bool)
| onScanSuccess (text : string) (decodedResult : DecodeResult)
| onScanError (errorMessage : string).

(** [hay.includes(needle)] *)
Fixpoint includes (needle hay : string) : bool :=
  String.prefix needle hay ||
  match hay with
  | EmptyString => false
  | String _ hay' => includes needle hay'
  end.

Definition set_state (st : Html5QrcodeScannerState) (e : Html5Qrcode) : Html5Qrcode :=
  {| state := st; cleared := cleared e; listener := listener e |}.

Definition set_cleared (e : Html5Qrcode) : Html5Qrcode :=
  {| state := state e; cleared := true; listener := listener e |}.

(** The scan runs, delivering to the callbacks of activation [a]. *)
Definition scan_for (a : nat) (e : Html5Qrcode) : Html5Qrcode :=
  {| state := SCANNING; cleared := cleared e; listener := Some a |}.

Definition settle_stop (r : StopResult) (e : Html5Qrcode) : Html5Qrcode :=
  match r with
  | Stopped => set_state NOT_STARTED e
  | StopFailed st => set_state st e
  end.

(** Engines with a capture session open. *)
Definition sessions (es : list Html5Qrcode) : nat :=
  length (List.filter (fun e => scanning_or_paused (state e)) es).

(** ** The scanner widget with attempt identifiers (second unnamed source
    file) *)

Module QRScanner.

Inductive CleanupPc :=
| CleanupAwaitStop (e : nat)     (* await scanner.current.stop() *)
| CleanupAwaitDelay.             (* await setTimeout(100) *)

(** Where a run of [initScanner] is suspended. *)
Inductive Pc :=
| TimerPending                   (* setTimeout(initScanner, 200) *)
| TimerCleared
| InCleanup (c : CleanupPc)      (* await safeCleanup() *)
| AwaitSettle                    (* await setTimeout(300) *)
| AwaitStart (e i : nat) (lastError : option Thrown)
| AwaitStop (e i : nat) (lastError : option Thrown)
| Ended.

(** One run of the effect body that got past its guard. *)
Record Attempt := mkAttempt { currentAttempt : nat; pc : Pc }.

(** The refs and state of one mounted component, the engines it created,
    the asynchronous work in flight, the cleanup function React holds for
    the main effect, and what was observable from outside: the callbacks
    invoked (with the activation that invoked them) and the camera
    configurations passed to [start()]. *)
Record Widget := mkWidget {
  scanner : option nat;
  engines : list Html5Qrcode;
  isCleaningUp : bool;
  initializationAttempt : nat;
  isInitializing : bool;
  error : option string;
  mounted : bool;
  attempts : list Attempt;
  teardowns : list (option CleanupPc);
  registered : option nat;
  calls : list (nat * Callback);
  started : list (nat * FacingMode)
}.

Definition initial : Widget :=
  {| scanner := None; engines := []; isCleaningUp := false;
     initializationAttempt := 0; isInitializing := false; error := None;
     mounted := true; attempts := []; teardowns := []; registered := None;
     calls := []; started := [] |}.

Definition set_scanner (x : option nat) (w : Widget) : Widget :=
  {| scanner := x; engines := engines w; isCleaningUp := isCleaningUp w;
     initializationAttempt := initializationAttempt w;
     isInitializing := isInitializing w; error := error w;
     mounted := mounted w; attempts := attempts w; teardowns := teardowns w;
     registered := registered w; calls := calls w; started := started w |}.

Definition set_engines (x : list Html5Qrcode) (w : Widget) : Widget :=
  {| scanner := scanner w; engines := x; isCleaningUp := isCleaningUp w;
     initializationAttempt := initializationAttempt w;
     isInitializing := isInitializing w; error := error w;
     mounted := mounted w; attempts := attempts w; teardowns := teardowns w;
     registered := registered w; calls := calls w; started := started w |}.

Definition set_isCleaningUp (x : bool) (w : Widget) : Widget :=
  {| scanner := scanner w; engines := engines w; isCleaningUp := x;
     initializationAttempt := initializationAttempt w;
     isInitializing := isInitializing w; error := error w;
     mounted := mounted w; attempts := attempts w; teardowns := teardowns w;
     registered := registered w; calls := calls w; started := started w |}.

Definition set_initializationAttempt (x : nat) (w : Widget) : Widget :=
  {| scanner := scanner w; engines := engines w; isCleaningUp := isCleaningUp w;
     initializationAttempt := x;
     isInitializing := isInitializing w; error := error w;
     mounted := mounted w; attempts := attempts w; teardowns := teardowns w;
     registered := registered w; calls := calls w; started := started w |}.

Definition set_isInitializing (x : bool) (w : Widget) : Widget :=
  {| scanner := scanner w; engines := engines w; isCleaningUp := isCleaningUp w;
     initializationAttempt := initializationAttempt w;
     isInitializing := x; error := error w;
     mounted := mounted w; attempts := attempts w; teardowns := teardowns w;
     registered := registered w; calls := calls w; started := started w |}.

Definition set_error (x : option string) (w : Widget) : Widget :=
  {| scanner := scanner w; engines := engines w; isCleaningUp := isCleaningUp w;
     initializationAttempt := initializationAttempt w;
     isInitializing := isInitializing w; error := x;
     mounted := mounted w; attempts := attempts w; teardowns := teardowns w;
     registered := registered w; calls := calls w; started := started w |}.

Definition set_mounted (x : bool) (w : Widget) : Widget :=
  {| scanner := scanner w; engines := engines w; isCleaningUp := isCleaningUp w;
     initializationAttempt := initializationAttempt w;
     isInitializing := isInitializing w; error := error w;
     mounted := x; attempts := attempts w; teardowns := teardowns w;
     registered := registered w; calls := calls w; started := started w |}.

Definition set_attempts (x : list Attempt) (w : Widget) : Widget :=
  {| scanner := scanner w; engines := engines w; isCleaningUp := isCleaningUp w;
     initializationAttempt := initializationAttempt w;
     isInitializing := isInitializing w; error := error w;
     mounted := mounted w; attempts := x; teardowns := teardowns w;
     registered := registered w; calls := calls w; started := started w |}.

Definition set_teardowns (x : list (option CleanupPc)) (w : Widget) : Widget :=
  {| scanner := scanner w; engines := engines w; isCleaningUp := isCleaningUp w;
     initializationAttempt := initializationAttempt w;
     isInitializing := isInitializing w; error := error w;
     mounted := mounted w; attempts := attempts w; teardowns := x;
     registered := registered w; calls := calls w; started := started w |}.

Definition set_registered (x : option nat) (w : Widget) : Widget :=
  {| scanner := scanner w; engines := engines w; isCleaningUp := isCleaningUp w;
     initializationAttempt := initializationAttempt w;
     isInitializing := isInitializing w; error := error w;
     mounted := mounted w; attempts := attempts w; teardowns := teardowns w;
     registered := x; calls := calls w; started := started w |}.

Definition add_calls (x : list (nat * Callback)) (w : Widget) : Widget :=
  {| scanner := scanner w; engines := engines w; isCleaningUp := isCleaningUp w;
     initializationAttempt := initializationAttempt w;
     isInitializing := isInitializing w; error := error w;
     mounted := mounted w; attempts := attempts w; teardowns := teardowns w;
     registered := registered w; calls := calls w ++ x; started := started w |}.

Definition add_started (x : nat * FacingMode) (w : Widget) : Widget :=
  {| scanner := scanner w; engines := engines w; isCleaningUp := isCleaningUp w;
     initializationAttempt := initializationAttempt w;
     isInitializing := isInitializing w; error := error w;
     mounted := mounted w; attempts := attempts w; teardowns := teardowns w;
     registered := registered w; calls := calls w; started := started w ++ [x] |}.

(** How the engine answers: [start()] for option [i] of activation [a],
    the [stop()] that follows a failed option, the [stop()] and [clear()]
    of a teardown of engine [e]. *)
Record Env := mkEnv {
  start_result : nat -> nat -> StartResult;
  fallback_stop_result : nat -> nat -> StopResult;
  cleanup_stop_result : nat -> StopResult;
  clear_throws : nat -> bool
}.

(** [scanner.current.getState()] read as scanning or paused. *)
Definition engine_active (e : nat) (w : Widget) : bool :=
  match engines w !! e with
  | Some x => scanning_or_paused (state x)
  | None => false
  end.

Definition cameraOptions : list (option FacingMode) :=
  [ Some (Facing "environment");
    Some (FacingIdeal "environment");
    Some (FacingExact "environment");
    Some (Facing "user");
    None ].

(** The message of the [TypeError] raised by [scanner.current!.start] when
    the ref is null. *)
Definition null_start_message : string :=
  "Cannot read properties of null (reading 'start')".

Definition userFriendlyMessage (errorMessage : string) : string :=
  if includes "Permission" errorMessage || includes "NotAllowedError" errorMessage
  then "Camera permission denied. Please allow camera access and refresh the page."
  else if includes "NotFoundError" errorMessage
          || includes "Requested device not found" errorMessage
  then "No camera found. Please ensure your device has a camera and try refreshing the page."
  else if includes "NotSupportedError" errorMessage
  then "Camera not supported in this browser. Please try Chrome or Safari."
  else if includes "NotReadableError" errorMessage
  then "Camera is already in use by another application. Please close other camera apps and try again."
  else errorMessage.

(** [err instanceof Error ? err.message : 'Failed to initialize QR scanner'] *)
Definition errorMessage_of (err : Thrown) : string :=
  match err with
  | ErrorObject message => message
  | OtherValue _ => "Failed to initialize QR scanner"
  end.

(** [lastError || new Error('All camera options failed')] *)
Definition or_all_failed (lastError : option Thrown) : Thrown :=
  match lastError with
  | Some (ErrorObject message) => ErrorObject message
  | Some (OtherValue true) => OtherValue true
  | _ => ErrorObject "All camera options failed"
  end.

Section Component.

Variable env : Env.
Variable preferredCamera : string.   (* the prop, the same at every render *)

(** [safeCleanup], from its call to its first await; [None] when it ran to
    its end at once. *)
Definition safeCleanup (w : Widget) : option CleanupPc * Widget :=
  match scanner w with
  | Some e =>
      if isCleaningUp w then (None, w)
      else if engine_active e w
           then (Some (CleanupAwaitStop e), set_isCleaningUp true w)
           else (Some CleanupAwaitDelay, set_isCleaningUp true w)
  | None => (None, w)
  end.

(** [safeCleanup] from one await to the next.  A rejected [stop()] and a
    throwing [clear()] are swallowed by the two [catch] blocks. *)
Definition safeCleanup_resume (c : CleanupPc) (w : Widget)
  : option CleanupPc * Widget :=
  match c with
  | CleanupAwaitStop e =>
      (Some CleanupAwaitDelay,
       set_engines (alter (settle_stop (cleanup_stop_result env e)) e (engines w)) w)
  | CleanupAwaitDelay =>
      let w1 :=
        match scanner w with
        | Some e =>
            if clear_throws env e then w
            else set_engines (alter set_cleared e (engines w)) w
        | None => w
        end in
      (None, set_isCleaningUp false (set_scanner None w1))
  end.

(** [finally { if (currentAttempt === initializationAttempt.current)
    setIsInitializing(false); }] *)
Definition finally (a : nat) (w : Widget) : Widget :=
  if (a =? initializationAttempt w)%nat then set_isInitializing false w else w.

(** The outer [catch (err)] and the [finally] after it. *)
Definition report (a : nat) (err : Thrown) (w : Widget) : Pc * Widget :=
  let message := userFriendlyMessage (errorMessage_of err) in
  (Ended,
   finally a
     (add_calls [(a, onScannerInit false); (a, onScanError message)]
        (set_error (Some message) w))).

(** The [for] loop from option [i] on, [rest] being the options left, up to
    the next await. *)
Fixpoint loop (rest : list (option FacingMode)) (i : nat)
    (lastError : option Thrown) (a : nat) (w : Widget) : Pc * Widget :=
  match rest with
  | [] => report a (or_all_failed lastError) w
  | o :: rest' =>
      if negb (a =? initializationAttempt w)%nat then (Ended, finally a w)
      else match scanner w with
           | Some e =>
               (AwaitStart e i lastError,
                add_started (a, default (Facing preferredCamera) o) w)
           | None =>
               loop rest' (S i) (Some (ErrorObject null_start_message)) a w
           end
  end.

(** The timer fires and [initScanner] runs to its first await. *)
Definition begin (a : nat) (w : Widget) : Pc * Widget :=
  if negb (a =? initializationAttempt w)%nat then (Ended, w)
  else
    match safeCleanup (set_error None (set_isInitializing true w)) with
    | (Some c, w') => (InCleanup c, w')
    | (None, w') => (AwaitSettle, w')
    end.

(** After the 300 ms delay: recheck, create the engine, enter the loop. *)
Definition after_settle (a : nat) (w : Widget) : Pc * Widget :=
  if negb (a =? initializationAttempt w)%nat then (Ended, finally a w)
  else if negb (mounted w)
  then report a (ErrorObject "QR scanner container not found") w
  else
    loop cameraOptions 0 None a
      (set_scanner (Some (length (engines w)))
         (set_engines (engines w ++ [new_Html5Qrcode]) w)).

(** [start()] for option [i] has settled. *)
Definition on_start (e i : nat) (a : nat) (w : Widget) : Pc * Widget :=
  match start_result env a i with
  | Started =>
      (Ended,
       finally a
         (add_calls [(a, onScannerInit true)]
            (set_engines (alter (scan_for a) e (engines w)) w)))
  | StartFailed reason st =>
      let w1 := set_engines (alter (set_state st) e (engines w)) w in
      match scanner w1 with
      | Some e' =>
          if engine_active e' w1 then (AwaitStop e' i (Some reason), w1)
          else loop (drop (S i) cameraOptions) (S i) (Some reason) a w1
      | None => loop (drop (S i) cameraOptions) (S i) (Some reason) a w1
      end
  end.

(** The [stop()] made in the [catch] of option [i] has settled. *)
Definition on_stop (e i : nat) (lastError : option Thrown) (a : nat)
    (w : Widget) : Pc * Widget :=
  loop (drop (S i) cameraOptions) (S i) lastError a
    (set_engines (alter (settle_stop (fallback_stop_result env a i)) e (engines w)) w).

Definition resume (t : Attempt) (w : Widget) : Pc * Widget :=
  let a := currentAttempt t in
  match pc t with
  | TimerPending => begin a w
  | TimerCleared => (TimerCleared, w)
  | InCleanup c =>
      match safeCleanup_resume c w with
      | (Some c', w') => (InCleanup c', w')
      | (None, w') => (AwaitSettle, w')
      end
  | AwaitSettle => after_settle a w
  | AwaitStart e i _ => on_start e i a w
  | AwaitStop e i lastError => on_stop e i lastError a w
  | Ended => (Ended, w)
  end.

(** [clearTimeout(timer)] *)
Definition clearTimeout (t : Attempt) : Attempt :=
  match pc t with
  | TimerPending => {| currentAttempt := currentAttempt t; pc := TimerCleared |}
  | _ => t
  end.

(** The function returned by the last run of the main effect, if any. *)
Definition effect_cleanup (w : Widget) : Widget :=
  match registered w with
  | Some k =>
      match attempts w !! k with
      | Some t =>
          let w1 := set_attempts (alter clearTimeout k (attempts w)) w in
          set_registered None
            (if (currentAttempt t =? initializationAttempt w1)%nat
             then set_initializationAttempt (S (initializationAttempt w1)) w1
             else w1)
      | None => set_registered None w
      end
  | None => w
  end.

(** React runs the main effect: the previous cleanup, then the body.  The
    body sees the [isInitializing] of the render it belongs to, which is the
    state as last set. *)
Definition effect (isActive : bool) (w : Widget) : Widget :=
  let w1 := effect_cleanup w in
  if negb isActive || negb (mounted w1) || isInitializing w1 || isCleaningUp w1
  then w1
  else
    let a := S (initializationAttempt w1) in
    set_registered (Some (length (attempts w1)))
      (set_attempts (attempts w1 ++ [{| currentAttempt := a; pc := TimerPending |}])
         (set_initializationAttempt a w1)).

(** React unmounts the component: the ref is detached and both effects are
    cleaned up, the second by a call of [safeCleanup()] nobody awaits. *)
Definition unmount (w : Widget) : Widget :=
  let w1 := effect_cleanup (set_mounted false w) in
  let '(c, w2) := safeCleanup w1 in
  set_teardowns (teardowns w2 ++ [c]) w2.

Inductive Action :=
| Activate                  (* the effect runs with isActive = true *)
| Deactivate                (* the effect runs with isActive = false *)
| Unmount
| Run (k : nat)             (* the timer or promise attempt k waits for *)
| RunTeardown (j : nat)     (* the promise teardown j waits for *)
| Decode (e : nat) (text : string) (result : DecodeResult).

Definition act (x : Action) (w : Widget) : Widget :=
  match x with
  | Activate => effect true w
  | Deactivate => effect false w
  | Unmount => unmount w
  | Run k =>
      match attempts w !! k with
      | Some t =>
          let '(p, w') := resume t w in
          set_attempts
            (<[k := {| currentAttempt := currentAttempt t; pc := p |}]> (attempts w')) w'
      | None => w
      end
  | RunTeardown j =>
      match teardowns w !! j with
      | Some (Some c) =>
          let '(c', w') := safeCleanup_resume c w in
          set_teardowns (<[j := c']> (teardowns w')) w'
      | _ => w
      end
  | Decode e text result =>
      match engines w !! e with
      | Some x =>
          match state x, listener x with
          | SCANNING, Some a => add_calls [(a, onScanSuccess text result)] w
          | _, _ => w
          end
      | None => w
      end
  end.

Definition exec (sched : list Action) (w : Widget) : Widget :=
  fold_left (fun w x => act x w) sched w.


(** Attempt [k] resumed until nothing is left of it: the timer, two awaits
    in [safeCleanup], the settling delay, and for each of the five options a
    [start()] and a [stop()]. *)
Definition settle (k : nat) (w : Widget) : Widget :=
  Nat.iter 14 (act (Run k)) w.

(** *** Vocabulary for statements about one activation

    Activation [a] is the newest one, registered after the activations
    [before], on a widget that has not created an engine yet. *)

(** The camera configurations of the first [n] options. *)
Definition requested (a n : nat) : list (nat * FacingMode) :=
  map (fun o => (a, default (Facing preferredCamera) o)) (take n cameraOptions).

(** Its timer is pending. *)
Definition ready (a : nat) (before : list Attempt) : Widget :=
  {| scanner := None; engines := []; isCleaningUp := false;
     initializationAttempt := a; isInitializing := false; error := None;
     mounted := true;
     attempts := before ++ [{| currentAttempt := a; pc := TimerPending |}];
     teardowns := []; registered := Some (length before); calls := [];
     started := [] |}.

(** It waits for [start()] of option [i] on its engine [x]. *)
Definition trying (a : nat) (before : list Attempt) (i : nat)
    (lastError : option Thrown) (x : Html5Qrcode) : Widget :=
  {| scanner := Some 0%nat; engines := [x]; isCleaningUp := false;
     initializationAttempt := a; isInitializing := true; error := None;
     mounted := true;
     attempts := before ++ [{| currentAttempt := a; pc := AwaitStart 0 i lastError |}];
     teardowns := []; registered := Some (length before); calls := [];
     started := requested a (S i) |}.

(** It waits for the [stop()] made after option [i] failed. *)
Definition stopping (a : nat) (before : list Attempt) (i : nat)
    (lastError : option Thrown) (x : Html5Qrcode) : Widget :=
  {| scanner := Some 0%nat; engines := [x]; isCleaningUp := false;
     initializationAttempt := a; isInitializing := true; error := None;
     mounted := true;
     attempts := before ++ [{| currentAttempt := a; pc := AwaitStop 0 i lastError |}];
     teardowns := []; registered := Some (length before); calls := [];
     started := requested a (S i) |}.

(** Option [i] started: the scan runs and the caller was told so. *)
Definition running (a : nat) (before : list Attempt) (i : nat)
    (x : Html5Qrcode) : Widget :=
  {| scanner := Some 0%nat; engines := [scan_for a x]; isCleaningUp := false;
     initializationAttempt := a; isInitializing := false; error := None;
     mounted := true;
     attempts := before ++ [{| currentAttempt := a; pc := Ended |}];
     teardowns := []; registered := Some (length before);
     calls := [(a, onScannerInit true)];
     started := requested a (S i) |}.


(** Decoded frames as the engine delivers them. *)
Definition frames (e : nat) (fs : list (string * DecodeResult)) : list Action :=
  map (fun f => Decode e (fst f) (snd f)) fs.

End Component.

(** The cameras [start()] is asked for, option by option. *)
Definition camera_choices (preferredCamera : string) : list Choice :=
  map (fun o => choice_of_facing (Some (default (Facing preferredCamera) o)))
      cameraOptions.


(** An activation that will do nothing more. *)
Definition inert (t : Attempt) : bool :=
  match pc t with
  | TimerCleared | Ended => true
  | _ => false
  end.



(** *** Vocabulary for statements about every execution *)

Definition is_init (a : nat) (c : nat * Callback) : bool :=
  match c with
  | (a', onScannerInit _) => (a' =? a)%nat
  | _ => false
  end.

(** How often activation [a] has called [onScannerInit]. *)
Definition init_count (a : nat) (cs : list (nat * Callback)) : nat :=
  length (List.filter (is_init a) cs).

(** Failures are reported in pairs: each [onScannerInit(false)] is followed
    at once by an [onScanError] of the same activation, and no [onScanError]
    stands alone. *)
Fixpoint paired (cs : list (nat * Callback)) : bool :=
  match cs with
  | [] => true
  | (a, onScannerInit false) :: cs' =>
      match cs' with
      | (a', onScanError _) :: cs'' => (a =? a')%nat && paired cs''
      | _ => false
      end
  | (_, onScanError _) :: _ => false
  | _ :: cs' => paired cs'
  end.

(** An activation whose timer has fired and that has not ended. *)
Definition in_progress (p : Pc) : bool :=
  match p with
  | InCleanup _ | AwaitSettle | AwaitStart _ _ _ | AwaitStop _ _ _ => true
  | TimerPending | TimerCleared | Ended => false
  end.

(** How many activations are in progress. *)
Definition in_flight (w : Widget) : nat :=
  length (List.filter (fun t => in_progress (pc t)) (attempts w)).

(** What holds of the activations in every execution: they carry distinct
    identifiers, none beyond the counter; one that has called
    [onScannerInit] has ended and called it once; failures are reported in
    pairs; at most one is in progress, none while [isInitializing] is
    false; and [isInitializing] is false while the newest one waits for its
    timer. *)
Record orderly (w : Widget) : Prop := mkOrderly {
  ids_bounded : forall k t,
      attempts w !! k = Some t ->
      (currentAttempt t <= initializationAttempt w)%nat;
  ids_distinct : forall k k' t t',
      attempts w !! k = Some t -> attempts w !! k' = Some t' ->
      currentAttempt t = currentAttempt t' -> k = k';
  init_ended : forall a,
      (0 < init_count a (calls w))%nat ->
      exists k t, attempts w !! k = Some t /\ currentAttempt t = a /\ pc t = Ended;
  init_once : forall a, (init_count a (calls w) <= 1)%nat;
  reports_paired : paired (calls w) = true;
  one_in_flight : (in_flight w <= 1)%nat;
  flag_covers : isInitializing w = false -> in_flight w = 0%nat;
  pending_unflagged : forall k t,
      attempts w !! k = Some t -> pc t = TimerPending ->
      currentAttempt t = initializationAttempt w -> isInitializing w = false
}.

(** What a step of activation [a] may have done when it does not end it,
    and when it does: it may then have lowered [isInitializing], if [a] is
    still the newest, and have reported success or failure. *)
Definition goes_on (w w' : Widget) : Prop :=
  attempts w' = attempts w /\
  initializationAttempt w' = initializationAttempt w /\
  isInitializing w' = isInitializing w /\
  calls w' = calls w.

Definition ends_with (a : nat) (w w' : Widget) : Prop :=
  attempts w' = attempts w /\
  initializationAttempt w' = initializationAttempt w /\
  (isInitializing w' = isInitializing w \/
   (isInitializing w' = false /\ a = initializationAttempt w)) /\
  (calls w' = calls w \/
   calls w' = calls w ++ [(a, onScannerInit true)] \/
   exists m, calls w' = calls w ++ [(a, onScannerInit false); (a, onScanError m)]).

(** An activation was superseded after it had set [isInitializing]: the
    flag is up and every activation is older than the counter. *)
Definition stuck (w : Widget) : Prop :=
  isInitializing w = true /\
  forall k t, attempts w !! k = Some t ->
              (currentAttempt t < initializationAttempt w)%nat.

(** Nothing is pending: every activation is inert and no teardown is in
    flight, while the engine [x] the widget holds is scanning. *)
Definition scanning_quietly (x : Html5Qrcode) (w : Widget) : Prop :=
  forallb inert (attempts w) = true /\
  Forall (fun c => c = None) (teardowns w) /\
  engines w = [x] /\ scanner w = Some 0%nat /\ isCleaningUp w = false /\
  scanning_or_paused (state x) = true.

(** Runs of the effect with [isActive = false], and everything React does
    not do itself. *)
Definition no_activation (x : Action) : bool :=
  match x with
  | Activate | Unmount => false
  | _ => true
  end.

(** *** Engines and schedules used in the examples *)

(** Every [start()] succeeds. *)
Definition engine_ok : Env :=
  {| start_result := fun _ _ => Started;
     fallback_stop_result := fun _ _ => Stopped;
     cleanup_stop_result := fun _ => Stopped;
     clear_throws := fun _ => false |}.

(** Every [start()] is refused for lack of permission. *)
Definition engine_denied : Env :=
  {| start_result := fun _ _ =>
       StartFailed (ErrorObject "NotAllowedError: Permission denied") NOT_STARTED;
     fallback_stop_result := fun _ _ => Stopped;
     cleanup_stop_result := fun _ => Stopped;
     clear_throws := fun _ => false |}.

(** The first two options fail, the first leaving the engine scanning. *)
Definition engine_third : Env :=
  {| start_result := fun _ i =>
       match i with
       | 0%nat => StartFailed (ErrorObject "OverconstrainedError") SCANNING
       | 1%nat => StartFailed (OtherValue true) NOT_STARTED
       | _ => Started
       end;
     fallback_stop_result := fun _ _ => StopFailed NOT_STARTED;
     cleanup_stop_result := fun _ => StopFailed SCANNING;
     clear_throws := fun _ => true |}.

Definition abc123 : DecodeResult :=
  {| decodedText := "ABC123"; formatName := "QR_CODE" |}.

(** The activation reaches [start()] of the first option, is superseded by
    a run of the effect with [isActive = false], and then [start()]
    resolves and a frame is decoded. *)
Definition superseded_while_starting : list Action :=
  [Activate; Run 0%nat; Run 0%nat; Deactivate; Run 0%nat;
   Decode 0%nat "ABC123" abc123].

(** The same with an unmount, whose teardown then completes. *)
Definition unmounted_while_starting : list Action :=
  [Activate; Run 0%nat; Run 0%nat; Unmount; Run 0%nat; RunTeardown 0%nat].

(** The activation is superseded while [start()] of the last option is
    pending, and that option fails. *)
Definition superseded_at_last_option : list Action :=
  [Activate] ++ replicate 6 (Run 0%nat) ++ [Deactivate; Run 0%nat].

End QRScanner.

(** ** The scanner widget without attempt identifiers
    (quest-app/src/components/ui/QRScanner.tsx) *)

Module QRScannerBasic.

(** Where a run of [initScanner] is suspended. *)
Inductive Pc :=
| AwaitOldStop (e : nat)      (* await scanner.current.stop().catch(() => {}) *)
| AwaitDelay                  (* await setTimeout(100) *)
| AwaitStart (e : nat)        (* start({ facingMode: preferredCamera }) *)
| AwaitFallback (e : nat)     (* start({ facingMode: { ideal: preferredCamera } }) *)
| Ended.

(** The promise chain set off by the effect's cleanup function. *)
Inductive CleanupPc :=
| CleanupAwaitStop (e : nat)
| CleanupEnded.

Record Widget := mkWidget {
  scanner : option nat;
  engines : list Html5Qrcode;
  isInitializing : bool;
  mounted : bool;
  runs : list Pc;
  cleanups : list CleanupPc;
  registered : bool;
  calls : list (nat * Callback);
  started : list (nat * FacingMode)
}.

Definition initial : Widget :=
  {| scanner := None; engines := []; isInitializing := false; mounted := true;
     runs := []; cleanups := []; registered := false; calls := [];
     started := [] |}.

Definition set_scanner (x : option nat) (w : Widget) : Widget :=
  {| scanner := x; engines := engines w; isInitializing := isInitializing w;
     mounted := mounted w; runs := runs w; cleanups := cleanups w;
     registered := registered w; calls := calls w; started := started w |}.

Definition set_engines (x : list Html5Qrcode) (w : Widget) : Widget :=
  {| scanner := scanner w; engines := x; isInitializing := isInitializing w;
     mounted := mounted w; runs := runs w; cleanups := cleanups w;
     registered := registered w; calls := calls w; started := started w |}.

Definition set_isInitializing (x : bool) (w : Widget) : Widget :=
  {| scanner := scanner w; engines := engines w; isInitializing := x;
     mounted := mounted w; runs := runs w; cleanups := cleanups w;
     registered := registered w; calls := calls w; started := started w |}.

Definition set_mounted (x : bool) (w : Widget) : Widget :=
  {| scanner := scanner w; engines := engines w; isInitializing := isInitializing w;
     mounted := x; runs := runs w; cleanups := cleanups w;
     registered := registered w; calls := calls w; started := started w |}.

Definition set_runs (x : list Pc) (w : Widget) : Widget :=
  {| scanner := scanner w; engines := engines w; isInitializing := isInitializing w;
     mounted := mounted w; runs := x; cleanups := cleanups w;
     registered := registered w; calls := calls w; started := started w |}.

Definition set_cleanups (x : list CleanupPc) (w : Widget) : Widget :=
  {| scanner := scanner w; engines := engines w; isInitializing := isInitializing w;
     mounted := mounted w; runs := runs w; cleanups := x;
     registered := registered w; calls := calls w; started := started w |}.

Definition set_registered (x : bool) (w : Widget) : Widget :=
  {| scanner := scanner w; engines := engines w; isInitializing := isInitializing w;
     mounted := mounted w; runs := runs w; cleanups := cleanups w;
     registered := x; calls := calls w; started := started w |}.

Definition add_calls (x : list (nat * Callback)) (w : Widget) : Widget :=
  {| scanner := scanner w; engines := engines w; isInitializing := isInitializing w;
     mounted := mounted w; runs := runs w; cleanups := cleanups w;
     registered := registered w; calls := calls w ++ x; started := started w |}.

Definition add_started (x : nat * FacingMode) (w : Widget) : Widget :=
  {| scanner := scanner w; engines := engines w; isInitializing := isInitializing w;
     mounted := mounted w; runs := runs w; cleanups := cleanups w;
     registered := registered w; calls := calls w; started := started w ++ [x] |}.

(** How the engine answers: [start()] number [i] of run [k], [stop()] and
    [clear()] of engine [e] ([clear()] may throw). *)
Record Env := mkEnv {
  start_result : nat -> nat -> StartResult;
  stop_result : nat -> StopResult;
  clear_result : nat -> option Thrown
}.

(** The message of the [TypeError] raised by a method call on a null
    [scanner.current]. *)
Definition null_scanner_message : string :=
  "Cannot read properties of null".

Definition userFriendlyMessage (errorMessage : string) : string :=
  if includes "Permission" errorMessage
  then "Camera permission denied. Please allow camera access and refresh the page."
  else if includes "NotFoundError" errorMessage
  then "No camera found. Please ensure your device has a camera."
  else if includes "NotAllowedError" errorMessage
  then "Camera access blocked. Please check your browser settings."
  else errorMessage.

(** [err instanceof Error ? err.message : 'Failed to initialize QR scanner'] *)
Definition errorMessage_of (err : Thrown) : string :=
  match err with
  | ErrorObject message => message
  | OtherValue _ => "Failed to initialize QR scanner"
  end.

Section Component.

Variable env : Env.
Variable preferredCamera : string.

(** The outer [catch (err)], then [finally { setIsInitializing(false); }]. *)
Definition report (k : nat) (err : Thrown) (w : Widget) : Pc * Widget :=
  let message := userFriendlyMessage (errorMessage_of err) in
  (Ended,
   set_isInitializing false
     (add_calls [(k, onScannerInit false); (k, onScanError message)] w)).

(** [onScannerInit(true)], then [finally]. *)
Definition succeed (k e : nat) (w : Widget) : Pc * Widget :=
  (Ended,
   set_isInitializing false
     (add_calls [(k, onScannerInit true)]
        (set_engines (alter (scan_for k) e (engines w)) w))).

(** [initScanner()] up to its first await. *)
Definition initScanner (w : Widget) : Pc * Widget :=
  let w1 := set_isInitializing true w in
  match scanner w1 with
  | Some e => (AwaitOldStop e, w1)
  | None => (AwaitDelay, w1)
  end.

Definition resume (k : nat) (p : Pc) (w : Widget) : Pc * Widget :=
  match p with
  | AwaitOldStop e =>
      (* the rejection of stop() is swallowed; then
         scanner.current.clear(); scanner.current = null; *)
      let w1 := set_engines (alter (settle_stop (stop_result env e)) e (engines w)) w in
      match scanner w1 with
      | Some e' =>
          match clear_result env e' with
          | Some v => report k v w1
          | None =>
              (AwaitDelay,
               set_scanner None
                 (set_engines (alter set_cleared e' (engines w1)) w1))
          end
      | None => report k (ErrorObject null_scanner_message) w1
      end
  | AwaitDelay =>
      let e := length (engines w) in
      (AwaitStart e,
       add_started (k, Facing preferredCamera)
         (set_scanner (Some e) (set_engines (engines w ++ [new_Html5Qrcode]) w)))
  | AwaitStart e =>
      match start_result env k 0 with
      | Started => succeed k e w
      | StartFailed _ st =>
          let w1 := set_engines (alter (set_state st) e (engines w)) w in
          match scanner w1 with
          | Some e' =>
              (AwaitFallback e',
               add_started (k, FacingIdeal preferredCamera) w1)
          | None => report k (ErrorObject null_scanner_message) w1
          end
      end
  | AwaitFallback e =>
      match start_result env k 1 with
      | Started => succeed k e w
      | StartFailed reason st =>
          report k reason (set_engines (alter (set_state st) e (engines w)) w)
      end
  | Ended => (Ended, w)
  end.

(** The cleanup function of the last effect run, if it returned one:
    [if (scanner.current) scanner.current.stop().then(...).catch(...)]. *)
Definition effect_cleanup (w : Widget) : Widget :=
  if registered w
  then set_registered false
         match scanner w with
         | Some e => set_cleanups (cleanups w ++ [CleanupAwaitStop e]) w
         | None => w
         end
  else w.

(** The [then] or the [catch] of the cleanup chain. *)
Definition cleanup_resume (c : CleanupPc) (w : Widget) : CleanupPc * Widget :=
  match c with
  | CleanupAwaitStop e =>
      match stop_result env e with
      | Stopped =>
          let w1 := set_engines (alter (set_state NOT_STARTED) e (engines w)) w in
          match scanner w1 with
          | Some e' =>
              match clear_result env e' with
              | Some _ => (CleanupEnded, w1)
              | None =>
                  (CleanupEnded,
                   set_scanner None
                     (set_engines (alter set_cleared e' (engines w1)) w1))
              end
          | None => (CleanupEnded, set_scanner None w1)
          end
      | StopFailed st =>
          (CleanupEnded, set_engines (alter (set_state st) e (engines w)) w)
      end
  | CleanupEnded => (CleanupEnded, w)
  end.

(** React runs the effect: the previous cleanup, then the body, which calls
    [initScanner()] at once.  As in the other widget, the body sees the
    [isInitializing] of the render it belongs to, taken to be the state as
    last set. *)
Definition effect (isActive : bool) (w : Widget) : Widget :=
  let w1 := effect_cleanup w in
  if negb isActive || negb (mounted w1) || isInitializing w1 then w1
  else
    let '(p, w2) := initScanner w1 in
    set_registered true (set_runs (runs w2 ++ [p]) w2).

Inductive Action :=
| Activate
| Deactivate
| Unmount
| Run (k : nat)
| RunCleanup (j : nat)
| Decode (e : nat) (text : string) (result : DecodeResult).

Definition act (x : Action) (w : Widget) : Widget :=
  match x with
  | Activate => effect true w
  | Deactivate => effect false w
  | Unmount => effect_cleanup (set_mounted false w)
  | Run k =>
      match runs w !! k with
      | Some p =>
          let '(p', w') := resume k p w in
          set_runs (<[k := p']> (runs w')) w'
      | None => w
      end
  | RunCleanup j =>
      match cleanups w !! j with
      | Some c =>
          let '(c', w') := cleanup_resume c w in
          set_cleanups (<[j := c']> (cleanups w')) w'
      | None => w
      end
  | Decode e text result =>
      match engines w !! e with
      | Some x =>
          match state x, listener x with
          | SCANNING, Some a => add_calls [(a, onScanSuccess text result)] w
          | _, _ => w
          end
      | None => w
      end
  end.

Definition exec (sched : list Action) (w : Widget) : Widget :=
  fold_left (fun w x => act x w) sched w.

(** Run [k] resumed until nothing is left of it. *)
Definition settle (k : nat) (w : Widget) : Widget :=
  Nat.iter 4 (act (Run k)) w.

Definition frames (e : nat) (fs : list (string * DecodeResult)) : list Action :=
  map (fun f => Decode e (fst f) (snd f)) fs.

End Component.

Definition is_init_true (k : nat) (c : nat * Callback) : bool :=
  match c with
  | (k', onScannerInit true) => (k' =? k)%nat
  | _ => false
  end.

(** How often run [k] has called [onScannerInit(true)]. *)
Definition init_true_count (k : nat) (cs : list (nat * Callback)) : nat :=
  length (List.filter (is_init_true k) cs).

(** A run that has called [onScannerInit(true)] has ended and called it
    once. *)
Definition reported_once (w : Widget) : Prop :=
  forall k, (init_true_count k (calls w) <= 1)%nat /\
            ((0 < init_true_count k (calls w))%nat -> runs w !! k = Some Ended).

(** Every [start()] is refused for lack of permission. *)
Definition engine_denied : Env :=
  {| start_result := fun _ _ =>
       StartFailed (ErrorObject "NotAllowedError: Permission denied") NOT_STARTED;
     stop_result := fun _ => Stopped;
     clear_result := fun _ => None |}.

(** The preferred camera is refused, the fallback starts. *)
Definition engine_fallback : Env :=
  {| start_result := fun _ i =>
       match i with
       | 0%nat => StartFailed (ErrorObject "OverconstrainedError") NOT_STARTED
       | _ => Started
       end;
     stop_result := fun _ => Stopped;
     clear_result := fun _ => None |}.

End QRScannerBasic.

(* ===================================================================== *)
(** * Part II: properties *)
(* ===================================================================== *)

Close Scope Z_scope.

Module CameraStreamManagerFacts.
Import CameraStreamManager.

Lemma stop_all_new (h : Heap) (ts : list Track) :
  stop_all (length h) (h ++ [ts]) = h ++ [map stop ts].
Proof.
  unfold stop_all.
  replace (length h) with (length h + 0) by lia.
  by rewrite alter_app_r.
Qed.

Lemma run_alone_finished opts env fuel o m :
  run_alone opts env fuel (Finished o) m = (Finished o, m).
Proof. by destruct fuel. Qed.

Lemma run_alone_step opts env fuel t m :
  (forall o, t <> Finished o) ->
  run_alone opts env (S fuel) t m = run_pair opts env fuel (resume opts env 0 t m).
Proof.
  intros Ht. unfold run_pair. cbn [run_alone].
  destruct t; try (by destruct (resume _ _ _ _ _)).
  by destruct (Ht o).
Qed.

Section Loop.
Variable opts : list MediaStreamConstraints.
Variable env : Env.

(** Skipping a run of options that all fail. *)
Lemma loop_skips (pre : list MediaStreamConstraints) :
  forall rest i lastError m fuel,
    drop i opts = pre ++ rest ->
    stream m = None ->
    forallb unusable (responses env (length (requests m)) pre) = true ->
    run_pair opts env (length pre + fuel) (loop_head opts 0 i lastError m) =
    run_pair opts env fuel
      (loop_head opts 0 (i + length pre)
         (last_rejection lastError (responses env (length (requests m)) pre))
         (after_failures 0 pre (responses env (length (requests m)) pre) m)).
Proof.
  induction pre as [|c pre IH]; intros rest i lastError m fuel Hdrop Hnull Hfail.
  - simpl. rewrite Nat.add_0_r. unfold after_failures. simpl.
    rewrite !app_nil_r. destruct m; simpl in *; by subst.
  - simpl in Hfail. apply andb_prop in Hfail as [Hc Hpre].
    assert (Hi : opts !! i = Some c).
    { rewrite <- (Nat.add_0_r i), <- lookup_drop, Hdrop. done. }
    assert (Hdrop' : drop (S i) opts = pre ++ rest).
    { rewrite (drop_S _ _ _ Hi) in Hdrop. by injection Hdrop. }
    unfold loop_head at 1. rewrite Hi.
    unfold run_pair at 1. cbn [fst snd length Nat.add].
    rewrite run_alone_step by done.
    cbn [resume requests add_request].
    rewrite list_lookup_middle by done.
    destruct (getUserMedia env (length (requests m)) c) as [ts|msg] eqn:Hr;
      cbn [on_response unusable] in *.
    + apply negb_true_iff in Hc. rewrite Hc.
      set (m1 := discard _).
      specialize (IH rest (S i) lastError m1 fuel Hdrop').
      assert (Hm1 : m1 = {| stream := None; usageCount := usageCount m;
                            isInitializing := isInitializing m;
                            heap := heap m ++ [map stop ts];
                            requests := requests m ++ [(0, c)] |}).
      { unfold m1, discard. cbn. by rewrite stop_all_new. }
      rewrite Hm1 in *. cbn [stream requests] in IH.
      rewrite length_app in IH. cbn [length] in IH.
      rewrite Nat.add_1_r in IH.
      rewrite IH by done.
      cbn [responses last_rejection fold_left]. rewrite Hr.
      unfold after_failures. cbn.
      rewrite <- !app_assoc. cbn.
      rewrite Nat.add_succ_r. reflexivity.
    + set (m1 := discard _).
      specialize (IH rest (S i) (Some msg) m1 fuel Hdrop').
      assert (Hm1 : m1 = {| stream := None; usageCount := usageCount m;
                            isInitializing := isInitializing m;
                            heap := heap m;
                            requests := requests m ++ [(0, c)] |}).
      { unfold m1, discard, add_request. cbn. rewrite Hnull. reflexivity. }
      rewrite Hm1 in *. cbn [stream requests] in IH.
      rewrite length_app in IH. cbn [length] in IH.
      rewrite Nat.add_1_r in IH.
      rewrite IH by done.
      cbn [responses last_rejection fold_left]. rewrite Hr.
      unfold after_failures. cbn.
      rewrite <- !app_assoc. cbn.
      rewrite Nat.add_succ_r. reflexivity.
Qed.
End Loop.

Lemma discarded_all_stopped rs : Forall all_stopped (discarded rs).
Proof.
  induction rs as [|[ts|msg] rs IH]; cbn; [constructor| |done].
  constructor; [|done].
  unfold all_stopped. apply Forall_forall. intros t Ht.
  apply list_elem_of_In, in_map_iff in Ht as (t' & <- & _). done.
Qed.

Lemma all_stopped_not_open ts : all_stopped ts -> is_open ts = false.
Proof.
  unfold all_stopped, is_open. induction 1 as [|t ts Ht _ IH]; cbn; [done|].
  by rewrite Ht, IH.
Qed.

Lemma open_streams_app h1 h2 :
  open_streams (h1 ++ h2) = open_streams h1 + open_streams h2.
Proof. unfold open_streams. by rewrite List.filter_app, length_app. Qed.

Lemma open_streams_stopped h : Forall all_stopped h -> open_streams h = 0.
Proof.
  unfold open_streams. induction 1 as [|ts h Hts _ IH]; cbn; [done|].
  by rewrite (all_stopped_not_open _ Hts).
Qed.

Section Sequential.
Variable opts : list MediaStreamConstraints.
Variable env : Env.

Lemma getCameraStream_enters m :
  supported env = true -> isInitializing m = false -> stream m = None ->
  getCameraStream opts env m =
  run_pair opts env (length opts)
    (loop_head opts 0 0 None (set_isInitializing true m)).
Proof.
  intros Hs Hi Hn. unfold getCameraStream.
  rewrite Nat.add_comm. cbn [Nat.add].
  rewrite run_alone_step by done. cbn [resume].
  rewrite Hi. unfold acquire_or_reuse. rewrite Hn, Hs.
  unfold run_pair at 1. cbn [fst snd].
  by rewrite run_alone_step.
Qed.

Lemma exhaustion m :
  supported env = true -> isInitializing m = false -> stream m = None ->
  forallb unusable (responses env (length (requests m)) opts) = true ->
  getCameraStream opts env m =
  (Finished (Threw ("Camera access failed: All camera initialization attempts failed. Last error: "
                    +:+ last_message
                          (last_rejection None
                             (responses env (length (requests m)) opts)))),
   {| stream := None; usageCount := usageCount m; isInitializing := false;
      heap := heap m ++ discarded (responses env (length (requests m)) opts);
      requests := requests m ++ map (pair 0) opts |}).
Proof.
  intros Hs Hi Hn Hfail. rewrite getCameraStream_enters by done.
  rewrite <- (Nat.add_0_r (length opts)).
  rewrite (loop_skips opts env opts [] 0 None _ 0); cbn [requests set_isInitializing];
    [|by rewrite app_nil_r|done|done].
  unfold loop_head. rewrite lookup_ge_None_2 by (cbn; lia).
  reflexivity.
Qed.

Lemma first_usable_wins m pre c post ts :
  supported env = true -> isInitializing m = false -> stream m = None ->
  opts = pre ++ c :: post ->
  forallb unusable (responses env (length (requests m)) pre) = true ->
  getUserMedia env (length (requests m) + length pre) c = Resolved ts ->
  is_working ts = true ->
  getCameraStream opts env m =
  (Finished (Returned (length (heap m ++ discarded (responses env (length (requests m)) pre)))),
   {| stream := Some (length (heap m ++ discarded (responses env (length (requests m)) pre)));
      usageCount := (usageCount m + 1)%Z; isInitializing := false;
      heap := (heap m ++ discarded (responses env (length (requests m)) pre)) ++ [ts];
      requests := requests m ++ map (pair 0) (pre ++ [c]) |}).
Proof.
  intros Hs Hi Hn Hopts Hfail Hr Hw. rewrite getCameraStream_enters by done.
  replace (length opts) with (length pre + S (length post))
    by (rewrite Hopts, length_app; done).
  rewrite (loop_skips opts env pre (c :: post) 0 None _ (S (length post)));
    cbn [requests set_isInitializing]; [|done..].
  unfold loop_head. cbn [Nat.add].
  assert (Hlk : opts !! length pre = Some c)
    by (rewrite Hopts; by apply list_lookup_middle).
  rewrite Hlk.
  unfold run_pair. cbn [fst snd]. rewrite run_alone_step by done.
  cbn [resume requests add_request after_failures].
  rewrite list_lookup_middle by done.
  rewrite length_app, length_map. cbn [requests set_isInitializing].
  rewrite Hr. cbn [on_response]. rewrite Hw.
  unfold run_pair, after_loop. cbn. rewrite run_alone_finished.
  unfold set_usageCount, set_isInitializing, set_stream, set_heap, add_request.
  cbn. by rewrite map_app, app_assoc.
Qed.

End Sequential.

(** ** Interleaved calls: what every reachable state satisfies *)

Lemma busy_insert (ts : list Task) t k k' :
  ts !! t = Some k ->
  busy (<[t := k']> ts) + weight k = busy ts + weight k'.
Proof.
  unfold busy. revert t.
  induction ts as [|x ts IH]; intros [|t] H; try done.
  - injection H as ->. cbn [insert list_insert sum_list_with]. lia.
  - specialize (IH _ H). cbn [insert list_insert sum_list_with].
    rewrite <- !Nat.add_assoc. f_equal. exact IH.
Qed.

Lemma stop_all_lookup (h : Heap) s r ts :
  stop_all s h !! r = Some ts ->
  exists ts0, h !! r = Some ts0 /\
              ((r <> s /\ ts = ts0) \/ (r = s /\ ts = map stop ts0)).
Proof.
  unfold stop_all. rewrite list_lookup_alter.
  destruct (decide (s = r)) as [->|Hne].
  - destruct (h !! r) as [ts0|]; cbn; [|done].
    intros [= <-]. eauto.
  - intros H. exists ts. split; [done|]. left. split; congruence.
Qed.

Lemma map_stop_not_open ts : is_open (map stop ts) = false.
Proof. unfold is_open. by induction ts. Qed.

Lemma idle_zero n m : coherent n m -> isInitializing m = false -> n = 0.
Proof.
  intros [_ H2 _ _ _] Hi. rewrite Hi in H2.
  symmetry in H2. apply Nat.ltb_ge in H2. lia.
Qed.

(** Closes the routine fields of [coherent] from the fields of [H]. *)
Ltac coh H := destruct H; constructor; cbn in *; try done; try lia.

Section Steps.
Variable opts : list MediaStreamConstraints.
Variable env : Env.

Lemma after_loop_coherent lastError m :
  coherent 0 (set_isInitializing false m) ->
  coherent 0 (snd (after_loop lastError m)) /\
  in_block (fst (after_loop lastError m)) = false.
Proof.
  intros H. unfold after_loop.
  destruct (stream m) eqn:Hs; cbn; (split; [|done]); coh H.
Qed.

Lemma loop_head_coherent self i lastError m :
  coherent 1 m ->
  coherent (weight (fst (loop_head opts self i lastError m)))
           (snd (loop_head opts self i lastError m)).
Proof.
  intros H. unfold loop_head. destruct (opts !! i) as [c|]; cbn.
  - coh H.
  - assert (Hn : stream m = None) by (destruct H; auto).
    unfold after_loop. rewrite Hn. cbn. coh H.
Qed.

Lemma resume_coherent self k m n :
  coherent n m -> (weight k <= n)%nat ->
  coherent (n - weight k + weight (fst (resume opts env self k m)))
           (snd (resume opts env self k m)).
Proof.
  intros H Hk. destruct k as [| | |i req lastError|o]; cbn [resume].
  - (* the call is made *)
    destruct (isInitializing m) eqn:Hi; cbn.
    { by rewrite Nat.sub_0_r, Nat.add_0_r. }
    assert (n = 0) as -> by (by apply (idle_zero n m)).
    unfold acquire_or_reuse. destruct (stream m) eqn:Hs; [coh H|].
    destruct (supported env); coh H.
  - (* one turn of the polling loop *)
    unfold poll. destruct (isInitializing m) eqn:Hi; cbn.
    { by rewrite Nat.sub_0_r, Nat.add_0_r. }
    assert (n = 0) as -> by (by apply (idle_zero n m)).
    destruct (stream m) eqn:Hs; [done|].
    unfold acquire_or_reuse. rewrite Hs.
    destruct (supported env); coh H.
  - (* the device list came back *)
    cbn in Hk. assert (n = 1) as -> by (destruct H; lia).
    cbn. by apply loop_head_coherent.
  - (* getUserMedia settled *)
    cbn in Hk. assert (n = 1) as -> by (destruct H; lia).
    destruct (requests m !! req) as [[issuer c]|]; [|done].
    cbn [Nat.sub Nat.add].
    assert (Hn : stream m = None) by (destruct H; auto).
    assert (Hclosed : forall r ts, heap m !! r = Some ts -> is_open ts = false).
    { intros r ts Hr. destruct (is_open ts) eqn:Ho; [|done].
      destruct H as [_ _ _ H4 _]. specialize (H4 _ _ Hr Ho). congruence. }
    destruct (getUserMedia env req c) as [ts|msg]; cbn [on_response].
    + destruct (is_working ts).
      * unfold after_loop. cbn. coh H.
        intros r ts' Hr Ho. apply lookup_snoc_Some in Hr as [[_ Hr]|[-> _]];
          [|done].
        rewrite (Hclosed _ _ Hr) in Ho. done.
      * apply loop_head_coherent. unfold discard. cbn.
        rewrite stop_all_new. coh H.
        intros r ts' Hr Ho. apply lookup_snoc_Some in Hr as [[_ Hr]|[_ <-]].
        -- rewrite (Hclosed _ _ Hr) in Ho. done.
        -- by rewrite map_stop_not_open in Ho.
    + apply loop_head_coherent. unfold discard. by rewrite Hn.
  - cbn. replace (n - 0 + 0) with n by lia. done.
Qed.

End Steps.

Lemma release_coherent n m : coherent n m -> coherent n (releaseCameraStream m).
Proof.
  intros H. unfold releaseCameraStream. cbn.
  destruct (stream m) as [s|] eqn:Hs; [|coh H].
  destruct (Z.eqb_spec (Z.max (usageCount m - 1) 0) 0) as [Hz|Hz]; [|coh H].
  destruct H as [H1 H2 H3 H4 H5]. constructor; cbn; try done; [|lia].
  intros r ts Hr Ho.
  apply stop_all_lookup in Hr as (ts0 & Hr & [[Hne ->]|[-> ->]]).
  - specialize (H4 _ _ Hr Ho). congruence.
  - by rewrite map_stop_not_open in Ho.
Qed.

Lemma busy_lookup (ts : list Task) t k : ts !! t = Some k -> weight k <= busy ts.
Proof.
  unfold busy. revert t. induction ts as [|x ts IH]; intros [|t] H; try done.
  - injection H as ->. cbn. lia.
  - specialize (IH _ H). cbn. lia.
Qed.

Lemma busy_replicate n : busy (replicate n NotCalled) = 0.
Proof. unfold busy. induction n; cbn; [done|]. by rewrite IHn. Qed.



Section Reachable.
Variable opts : list MediaStreamConstraints.
Variable env : Env.

Lemma act_sound a w : sound w -> sound (act opts env a w).
Proof.
  unfold sound. intros H. destruct a as [t|]; cbn.
  - destruct (tasks w !! t) as [k|] eqn:Hk; [|done].
    pose proof (busy_lookup _ _ _ Hk) as Hle.
    pose proof (resume_coherent opts env t k (mgr w) _ H Hle) as H'.
    destruct (resume opts env t k (mgr w)) as [k' m'] eqn:Hres. cbn in *.
    pose proof (busy_insert (tasks w) t k k' Hk) as Hb.
    replace (busy (<[t:=k']> (tasks w)))
      with (busy (tasks w) - weight k + weight k') by lia.
    done.
  - by apply release_coherent.
Qed.

Lemma exec_sound sched : forall w, sound w -> sound (exec opts env sched w).
Proof.
  induction sched as [|a sched IH]; intros w H; [done|].
  cbn. apply IH. by apply act_sound.
Qed.

Lemma start_sound n : sound (start n).
Proof.
  unfold sound, start. cbn. rewrite busy_replicate.
  constructor; cbn; try done. lia.
Qed.

Lemma reachable_sound n sched : sound (exec opts env sched (start n)).
Proof. apply exec_sound, start_sound. Qed.

End Reachable.

(** ** Two calls, the second made while the first is acquiring *)

Section Pair.
Variable opts : list MediaStreamConstraints.
Variable env : Env.






End Pair.

(** ** The claims about the stream manager *)

(** C1 (the code departs from the claim).  A call that finds an acquisition
    in flight, waits for it and returns its stream leaves through
    [if (stream) return stream;] and never reaches [usageCount++]: two
    callers hold the stream, the usage count is 1, and a single
    [releaseCameraStream()] stops the tracks under the other holder. *)
Theorem C1_waiting_call_is_not_counted :
  let w := exec constraintOptions browser_ok overlapping_calls (start 2) in
  tasks w = [Finished (Returned 0); Finished (Returned 0)] /\
  getCameraUsageCount (mgr w) = 1%Z /\
  stream (releaseCameraStream (mgr w)) = None /\
  heap (releaseCameraStream (mgr w)) = [[stop liveTrack]].
Proof. vm_compute. done. Qed.




(** C4.  When no option gives a stream with a live video track, the call
    throws an error whose message ends with the message of the last
    rejection ("Unknown error" when nothing was rejected or that message is
    empty); no stream is held, the usage count and the busy flag are as
    before, the streams that existed are untouched and every track of every
    stream opened by the call has been stopped. *)
Theorem C4_exhaustion_leaves_the_manager_unchanged opts env m :
  supported env = true -> isInitializing m = false -> stream m = None ->
  forallb unusable (responses env (length (requests m)) opts) = true ->
  let rs := responses env (length (requests m)) opts in
  let r := getCameraStream opts env m in
  fst r = Finished (Threw
            ("Camera access failed: All camera initialization attempts failed. Last error: "
             +:+ last_message (last_rejection None rs))) /\
  (forall c msg, last_rejection None rs = Some (String c msg) ->
     last_message (last_rejection None rs) = String c msg) /\
  stream (snd r) = None /\
  usageCount (snd r) = usageCount m /\
  isInitializing (snd r) = false /\
  heap (snd r) = heap m ++ discarded rs /\
  Forall all_stopped (discarded rs) /\
  open_streams (heap (snd r)) = open_streams (heap m).
Proof.
  intros Hs Hi Hn Hfail rs r. unfold r.
  rewrite (exhaustion opts env m Hs Hi Hn Hfail). cbn [fst snd].
  repeat split; try done.
  - by intros c msg ->.
  - apply discarded_all_stopped.
  - cbn [heap]. rewrite open_streams_app.
    rewrite (open_streams_stopped _ (discarded_all_stopped _)). lia.
Qed.

Lemma C4_exhaustion_leaves_the_manager_unchanged_witness :
  fst (getCameraStream constraintOptions browser_never initial) =
    Finished (Threw "Camera access failed: All camera initialization attempts failed. Last error: Requested device not found") /\
  stream (snd (getCameraStream constraintOptions browser_never initial)) = None /\
  usageCount (snd (getCameraStream constraintOptions browser_never initial)) = 0%Z.
Proof.
  destruct (C4_exhaustion_leaves_the_manager_unchanged constraintOptions
              browser_never initial eq_refl eq_refl eq_refl eq_refl)
    as (H1 & _ & H3 & H4 & _).
  split; [exact H1|]. split; [exact H3|exact H4].
Defined.



(** C5, as stated, fails on the two-option manager, which never looks at
    [readyState]: a stream whose only track has ended is accepted, counted
    and returned with its track left unstopped. *)
Lemma C5_two_option_manager_keeps_a_dead_stream :
  let r := CameraStreamManagerTwoOptions.getCameraStream
             CameraStreamManagerTwoOptions.browser_stale initial in
  fst r = CameraStreamManagerTwoOptions.Finished (Returned 0) /\
  stream (snd r) = Some 0 /\
  heap (snd r) = [[endedTrack]] /\
  is_working [endedTrack] = false /\
  List.filter is_live (getVideoTracks [endedTrack]) = [].
Proof. vm_compute. done. Qed.

(** C5 (amended: the manager with the list of options).  Whatever option
    [i] it answers, a stream is kept only if its first video track is live,
    and then it is the held stream; a stream that fails the test has all its
    tracks stopped and is dropped, and only from that state is the next
    option requested (or the call gives up). *)
Theorem C5_only_live_streams_are_kept opts self i lastError ts m :
  let r := on_response opts self i lastError (Resolved ts) m in
  let stopped_first :=
    set_stream None (set_heap (heap m ++ [map stop ts]) m) in
  (forall s, fst r = Finished (Returned s) ->
     s = length (heap m) /\ stream (snd r) = Some s /\
     heap (snd r) !! s = Some ts /\
     exists t, In t (getVideoTracks ts) /\ readyState t = Live) /\
  (is_working ts = false ->
     r = loop_head opts self (S i) lastError stopped_first /\
     heap (snd r) = heap m ++ [map stop ts] /\
     all_stopped (map stop ts) /\
     stream (snd r) = None).
Proof.
  intros r stopped_first. unfold r. cbn [on_response].
  destruct (is_working ts) eqn:Hw.
  - split; [|done]. unfold after_loop. cbn. intros s [= <-].
    split; [done|]. split; [done|]. split.
    + by apply list_lookup_middle.
    + unfold is_working in Hw. apply andb_prop in Hw as [_ Hw].
      destruct (getVideoTracks ts) as [|t l]; [done|].
      exists t. split; [by left|]. unfold is_live in Hw.
      by destruct (readyState t).
  - assert (Hd : discard (set_stream (Some (length (heap m)))
                            (set_heap (heap m ++ [ts]) m)) = stopped_first).
    { unfold discard. cbn. by rewrite stop_all_new. }
    rewrite Hd. split.
    + intros s Hs. exfalso. unfold loop_head in Hs.
      destruct (opts !! S i); [done|]. by unfold after_loop in Hs.
    + intros _. split; [done|].
      assert (Hh : heap (snd (loop_head opts self (S i) lastError stopped_first))
                   = heap m ++ [map stop ts]
                   /\ stream (snd (loop_head opts self (S i) lastError stopped_first))
                      = None).
      { unfold loop_head. destruct (opts !! S i); [done|].
        by unfold after_loop. }
      destruct Hh as [Hh Hst]. split; [done|]. split; [|done].
      unfold all_stopped. apply Forall_forall. intros t Ht.
      apply list_elem_of_In, in_map_iff in Ht as (t' & <- & _). done.
Qed.

Lemma C5_only_live_streams_are_kept_witness :
  heap (snd (on_response constraintOptions 0 1 None
               (Resolved [endedTrack]) initial)) = [[stop endedTrack]].
Proof.
  destruct (C5_only_live_streams_are_kept constraintOptions
              0 1 None [endedTrack] initial) as [_ H].
  destruct (H eq_refl) as (_ & Hh & _). exact Hh.
Defined.

End CameraStreamManagerFacts.

Module QRScannerFacts.
Import QRScanner.

Lemma iter_stable {A} (f : A -> A) (y : A) n m x :
  f y = y -> Nat.iter n f x = y -> n <= m -> Nat.iter m f x = y.
Proof.
  intros Hy Hn Hle. replace m with ((m - n) + n) by lia.
  rewrite Nat.iter_add, Hn. clear Hn Hle.
  induction (m - n) as [|d IH]; [done|].
  change (Nat.iter (S d) f y) with (f (Nat.iter d f y)). by rewrite IH.
Qed.

(** Computes through the rechecks of a current activation. *)
Ltac crunch := repeat (cbn; rewrite ?Nat.eqb_refl).

Section OneActivation.
Variable env : Env.
Variable preferredCamera : string.
Variable a : nat.
Variable before : list Attempt.

Local Abbreviation step := (act env preferredCamera (Run (length before))).

(** Resuming the newest activation, in terms of [resume]. *)
Lemma step_newest w t p w' :
  attempts w = before ++ [t] ->
  resume env preferredCamera t w = (p, w') ->
  attempts w' = attempts w ->
  step w = set_attempts (before ++ [{| currentAttempt := currentAttempt t; pc := p |}]) w'.
Proof.
  intros Ha Hr Ha'. unfold act. rewrite Ha, list_lookup_middle by done.
  rewrite Hr, Ha', Ha.
  replace (length before) with (length before + 0) at 1 by lia.
  by rewrite insert_app_r.
Qed.

Lemma ready_reaches_start :
  Nat.iter 2 step (ready a before)
  = trying preferredCamera a before 0 None new_Html5Qrcode.
Proof.
  change (step (step (ready a before))
          = trying preferredCamera a before 0 None new_Html5Qrcode).
  erewrite (step_newest (ready a before)); [|reflexivity| |].
  2:{ cbn. unfold begin. crunch. reflexivity. }
  2:{ reflexivity. }
  erewrite step_newest; [|reflexivity| |].
  2:{ cbn. unfold after_settle. crunch. reflexivity. }
  2:{ reflexivity. }
  reflexivity.
Qed.

Lemma trying_ok i lastError x :
  start_result env a i = Started ->
  step (trying preferredCamera a before i lastError x)
  = running preferredCamera a before i x.
Proof.
  intros H.
  erewrite step_newest; [|reflexivity| |].
  2:{ cbn. unfold on_start. rewrite H. unfold finally. crunch. reflexivity. }
  2:{ reflexivity. }
  reflexivity.
Qed.

(** What [loop] does from option [i] on while the activation is current
    and holds an engine. *)
Lemma loop_requests rest o i lastError w e :
  initializationAttempt w = a -> scanner w = Some e ->
  loop preferredCamera (o :: rest) i lastError a w =
  (AwaitStart e i lastError,
   add_started (a, default (Facing preferredCamera) o) w).
Proof.
  intros Ha Hs. cbn. by rewrite Ha, Nat.eqb_refl, Hs.
Qed.

Lemma requested_S i o :
  cameraOptions !! i = Some o ->
  requested preferredCamera a (S i) =
  requested preferredCamera a i ++ [(a, default (Facing preferredCamera) o)].
Proof.
  intros H. unfold requested. rewrite (take_S_r _ _ _ H), map_app. done.
Qed.

Lemma trying_next i lastError x reason st :
  i < 4 -> start_result env a i = StartFailed reason st ->
  exists n x', n <= 2 /\
    Nat.iter n step (trying preferredCamera a before i lastError x)
    = trying preferredCamera a before (S i) (Some reason) x'.
Proof.
  intros Hi H.
  assert (Ho : exists o rest, drop (S i) cameraOptions = o :: rest /\
                              cameraOptions !! S i = Some o).
  { destruct i as [|[|[|[|i]]]]; try lia; cbn; eauto. }
  destruct Ho as (o & rest & Hdrop & Ho).
  destruct (scanning_or_paused st) eqn:Hst.
  - exists 2, (settle_stop (fallback_stop_result env a i) (set_state st x)).
    split; [lia|].
    change (step (step (trying preferredCamera a before i lastError x))
            = trying preferredCamera a before (S i) (Some reason)
                (settle_stop (fallback_stop_result env a i) (set_state st x))).
    erewrite (step_newest (trying preferredCamera a before i lastError x));
      [|reflexivity| |].
    2:{ cbn. unfold on_start. rewrite H. cbn. unfold engine_active. cbn.
        rewrite Hst. reflexivity. }
    2:{ reflexivity. }
    erewrite step_newest; [|reflexivity| |].
    2:{ cbn [resume pc currentAttempt]. unfold on_stop. rewrite Hdrop.
        by rewrite (loop_requests _ _ _ _ _ 0). }
    2:{ reflexivity. }
    unfold trying. rewrite (requested_S (S i) o Ho). reflexivity.
  - exists 1, (set_state st x). split; [lia|].
    change (step (trying preferredCamera a before i lastError x)
            = trying preferredCamera a before (S i) (Some reason) (set_state st x)).
    erewrite step_newest; [|reflexivity| |].
    2:{ cbn [resume pc currentAttempt]. unfold on_start. rewrite H, Hdrop.
        unfold trying, engine_active. cbn -[loop requested]. rewrite Hst.
        by rewrite (loop_requests _ _ _ _ _ 0). }
    2:{ reflexivity. }
    unfold trying. rewrite (requested_S (S i) o Ho). reflexivity.
Qed.


Lemma running_stable i x :
  step (running preferredCamera a before i x) = running preferredCamera a before i x.
Proof. by erewrite step_newest; [|reflexivity|reflexivity|reflexivity]. Qed.


(** Options [i .. j-1] fail and option [j] starts. *)
Lemma trying_reaches_running j :
  j < 5 ->
  (forall i, i < j -> start_result env a i <> Started) ->
  start_result env a j = Started ->
  forall d i lastError x, i + d = j ->
    exists n x', n <= 2 * d + 1 /\
      Nat.iter n step (trying preferredCamera a before i lastError x)
      = running preferredCamera a before j x'.
Proof.
  intros Hj Hfail Hok. induction d as [|d IH]; intros i lastError x Hi.
  - rewrite Nat.add_0_r in Hi. subst i. exists 1, x. split; [lia|].
    by apply trying_ok.
  - assert (Hlt : i < j) by lia.
    destruct (start_result env a i) as [|reason st] eqn:Hr;
      [by destruct (Hfail i Hlt)|].
    destruct (trying_next i lastError x reason st ltac:(lia) Hr)
      as (n1 & x1 & Hn1 & H1).
    destruct (IH (S i) (Some reason) x1 ltac:(lia)) as (n2 & x2 & Hn2 & H2).
    exists (n2 + n1), x2. split; [lia|].
    by rewrite Nat.iter_add, H1.
Qed.


Lemma settle_running j :
  j < 5 ->
  (forall i, i < j -> start_result env a i <> Started) ->
  start_result env a j = Started ->
  exists x, settle env preferredCamera (length before) (ready a before)
            = running preferredCamera a before j x.
Proof.
  intros Hj Hfail Hok.
  destruct (trying_reaches_running j Hj Hfail Hok j 0 None new_Html5Qrcode eq_refl)
    as (n & x & Hn & H).
  exists x. unfold settle.
  apply (iter_stable _ _ (n + 2)); [apply running_stable| |lia].
  by rewrite Nat.iter_add, ready_reaches_start.
Qed.



End OneActivation.

Section Frames.
Variable env : Env.
Variable preferredCamera : string.

(** Frames decoded by a scanning engine go to the callbacks it was started
    with, and change nothing else. *)
Lemma frames_delivered e a x fs :
  forall w, engines w !! e = Some x -> state x = SCANNING ->
    listener x = Some a ->
    exec env preferredCamera (frames e fs) w =
    add_calls (map (fun f => (a, onScanSuccess (fst f) (snd f))) fs) w.
Proof.
  intros w He Hs Hl. revert w He.
  induction fs as [|[text result] fs IH]; intros w He.
  - cbn. unfold add_calls. rewrite app_nil_r. by destruct w.
  - cbn [frames map exec fold_left act fst snd]. rewrite He, Hs, Hl.
    change (fold_left _ _ ?w0) with (exec env preferredCamera (frames e fs) w0).
    rewrite IH by done. unfold add_calls. cbn. by rewrite <- app_assoc.
Qed.

End Frames.
End QRScannerFacts.

Module QRScannerBasicFacts.
Import QRScannerBasic.

Section OneActivation.
Variable env : Env.
Variable preferredCamera : string.

Local Abbreviation fresh := (act env preferredCamera Activate initial).

Lemma settle_first :
  start_result env 0 0 = Started ->
  settle env preferredCamera 0 fresh =
  {| scanner := Some 0; engines := [scan_for 0 new_Html5Qrcode];
     isInitializing := false; mounted := true; runs := [Ended];
     cleanups := []; registered := true;
     calls := [(0, onScannerInit true)];
     started := [(0, Facing preferredCamera)] |}.
Proof.
  intros H. unfold settle. cbn. rewrite H. reflexivity.
Qed.

Lemma settle_second reason st :
  start_result env 0 0 = StartFailed reason st ->
  start_result env 0 1 = Started ->
  settle env preferredCamera 0 fresh =
  {| scanner := Some 0; engines := [scan_for 0 (set_state st new_Html5Qrcode)];
     isInitializing := false; mounted := true; runs := [Ended];
     cleanups := []; registered := true;
     calls := [(0, onScannerInit true)];
     started := [(0, Facing preferredCamera); (0, FacingIdeal preferredCamera)] |}.
Proof.
  intros H0 H1. unfold settle. cbn. rewrite H0. cbn. rewrite H1. reflexivity.
Qed.


Lemma basic_frames_delivered e a x fs :
  forall w, engines w !! e = Some x -> state x = SCANNING ->
    listener x = Some a ->
    exec env preferredCamera (frames e fs) w =
    add_calls (map (fun f => (a, onScanSuccess (fst f) (snd f))) fs) w.
Proof.
  intros w He Hs Hl. revert w He.
  induction fs as [|[text result] fs IH]; intros w He.
  - cbn. unfold add_calls. rewrite app_nil_r. by destruct w.
  - cbn [frames map exec fold_left act fst snd]. rewrite He, Hs, Hl.
    change (fold_left _ _ ?w0) with (exec env preferredCamera (frames e fs) w0).
    rewrite IH by done. unfold add_calls. cbn. by rewrite <- app_assoc.
Qed.

End OneActivation.
End QRScannerBasicFacts.

(** ** The claims about the scanner widget *)

Module ScannerClaims.

Import QRScanner QRScannerFacts.

(** Where the attempt identifier is rechecked, a superseded activation
    stops without having touched anything: when its timer fires, after the
    settling delay, and at the top of every turn of the loop. *)
Lemma stale_activation_aborts_at_rechecks preferredCamera a w :
  a <> initializationAttempt w ->
  begin a w = (Ended, w) /\
  after_settle preferredCamera a w = (Ended, w) /\
  forall o rest i lastError,
    loop preferredCamera (o :: rest) i lastError a w = (Ended, w).
Proof.
  intros H. apply Nat.eqb_neq in H.
  unfold begin, after_settle, loop, finally. rewrite H. done.
Qed.

(** C3 (the code departs from the claim).  After [await start(...)] the
    attempt identifier is not rechecked, nor is it in the [catch] that
    reports exhaustion.  An activation superseded while [start()] is
    pending still calls [onScannerInit(true)] when it resolves, and the
    frames decoded afterwards reach [onScanSuccess]; superseded by an
    unmount, it leaves a scan running that the widget no longer refers to;
    superseded while the last option is pending, it sets the error shown
    and calls [onScannerInit(false)] and [onScanError]. *)
Theorem C3_superseded_activation_still_reports :
  let w1 := exec engine_ok "environment" superseded_while_starting initial in
  let w2 := exec engine_ok "environment" unmounted_while_starting initial in
  let w3 := exec engine_denied "environment" superseded_at_last_option initial in
  (initializationAttempt w1 = 2 /\
   calls w1 = [(1, onScannerInit true); (1, onScanSuccess "ABC123" abc123)]) /\
  (initializationAttempt w2 = 2 /\ mounted w2 = false /\
   calls w2 = [(1, onScannerInit true)] /\
   scanner w2 = None /\ sessions (engines w2) = 1) /\
  (initializationAttempt w3 = 2 /\
   error w3 = Some "Camera permission denied. Please allow camera access and refresh the page." /\
   calls w3 = [(1, onScannerInit false);
               (1, onScanError "Camera permission denied. Please allow camera access and refresh the page.")]).
Proof. vm_compute. done. Qed.

(** C7.  In an activation of a freshly mounted widget in which option [j]
    is the first to start (in the basic widget: attempt [j'] of its two),
    [onScannerInit(true)] is called once and nothing else is; one scan
    runs; from then on every decoded frame is passed to [onScanSuccess]
    with its text and the engine's result, in particular "ABC123". *)
Theorem C7_init_once_then_every_frame
    (env : Env) (env' : QRScannerBasic.Env) preferredCamera j j' fs :
  j < 5 ->
  (forall i, i < j -> start_result env 1 i <> Started) ->
  start_result env 1 j = Started ->
  j' < 2 ->
  (forall i, i < j' -> QRScannerBasic.start_result env' 0 i <> Started) ->
  QRScannerBasic.start_result env' 0 j' = Started ->
  let w := settle env preferredCamera 0 (act env preferredCamera Activate initial) in
  let w' := QRScannerBasic.settle env' preferredCamera 0
              (QRScannerBasic.act env' preferredCamera QRScannerBasic.Activate
                 QRScannerBasic.initial) in
  (calls w = [(1, onScannerInit true)] /\
   sessions (engines w) = 1 /\
   calls (exec env preferredCamera (frames 0 fs) w) =
     (1, onScannerInit true) :: map (fun f => (1, onScanSuccess (fst f) (snd f))) fs /\
   calls (act env preferredCamera (Decode 0 "ABC123" abc123) w) =
     [(1, onScannerInit true); (1, onScanSuccess "ABC123" abc123)]) /\
  (QRScannerBasic.calls w' = [(0, onScannerInit true)] /\
   sessions (QRScannerBasic.engines w') = 1 /\
   QRScannerBasic.calls
     (QRScannerBasic.exec env' preferredCamera (QRScannerBasic.frames 0 fs) w') =
     (0, onScannerInit true) :: map (fun f => (0, onScanSuccess (fst f) (snd f))) fs /\
   QRScannerBasic.calls
     (QRScannerBasic.act env' preferredCamera
        (QRScannerBasic.Decode 0 "ABC123" abc123) w') =
     [(0, onScannerInit true); (0, onScanSuccess "ABC123" abc123)]).
Proof.
  intros Hj Hfail Hok Hj' Hfail' Hok' w w'. split.
  - destruct (settle_running env preferredCamera 1 [] j Hj Hfail Hok) as [x Hx].
    change (settle env preferredCamera 0 (act env preferredCamera Activate initial)
            = running preferredCamera 1 [] j x) in Hx.
    unfold w. rewrite Hx. split; [done|]. split; [done|]. split; [|done].
    by rewrite (frames_delivered env preferredCamera 0 1 (scan_for 1 x)).
  - assert (Hw' : exists x, w' =
              {| QRScannerBasic.scanner := Some 0;
                 QRScannerBasic.engines := [scan_for 0 x];
                 QRScannerBasic.isInitializing := false;
                 QRScannerBasic.mounted := true;
                 QRScannerBasic.runs := [QRScannerBasic.Ended];
                 QRScannerBasic.cleanups := [];
                 QRScannerBasic.registered := true;
                 QRScannerBasic.calls := [(0, onScannerInit true)];
                 QRScannerBasic.started := QRScannerBasic.started w' |}).
    { destruct j' as [|[|j']]; [| |lia].
      - exists new_Html5Qrcode. unfold w'.
        by rewrite (QRScannerBasicFacts.settle_first _ _ Hok').
      - destruct (QRScannerBasic.start_result env' 0 0) as [|reason st] eqn:H0;
          [by destruct (Hfail' 0 ltac:(lia))|].
        exists (set_state st new_Html5Qrcode). unfold w'.
        by rewrite (QRScannerBasicFacts.settle_second _ _ reason st H0 Hok'). }
    destruct Hw' as [x Hx]. rewrite Hx. split; [done|]. split; [done|].
    split; [|done].
    by rewrite (QRScannerBasicFacts.basic_frames_delivered env' preferredCamera 0 0
                  (scan_for 0 x)).
Qed.


Lemma C7_init_once_then_every_frame_witness :
  calls (act engine_third "environment" (Decode 0 "ABC123" abc123)
           (settle engine_third "environment" 0
              (act engine_third "environment" Activate initial))) =
    [(1, onScannerInit true); (1, onScanSuccess "ABC123" abc123)] /\
  QRScannerBasic.calls
    (QRScannerBasic.settle QRScannerBasic.engine_fallback "environment" 0
       (QRScannerBasic.act QRScannerBasic.engine_fallback "environment"
          QRScannerBasic.Activate QRScannerBasic.initial)) =
    [(0, onScannerInit true)].
Proof.
  assert (H2 : 2 < 5) by lia. assert (H1 : 1 < 2) by lia.
  assert (Hf : forall i, i < 2 -> start_result engine_third 1 i <> Started).
  { intros [|[|i]] Hi; cbn; [done|done|lia]. }
  assert (Hf' : forall i, i < 1 ->
            QRScannerBasic.start_result QRScannerBasic.engine_fallback 0 i <> Started).
  { intros [|i] Hi; cbn; [done|lia]. }
  destruct (C7_init_once_then_every_frame engine_third
              QRScannerBasic.engine_fallback "environment" 2 1 []
              H2 Hf eq_refl H1 Hf' eq_refl)
    as [(_ & _ & _ & Hc) (Hc' & _)].
  split; [exact Hc|exact Hc'].
Defined.








(** *** Teardown *)






(** *** Two activations in a row *)


Section Lone.
Variable env : Env.
Variable preferredCamera : string.



Variable a : nat.
Variable before : list Attempt.
Hypothesis before_inert : forallb inert before = true.







End Lone.



(** C6, as stated, fails on the second version of the manager, whose list
    starts with the unconstrained option and ends with the rear camera, and
    on the widget, whose list has the exact rear camera third and ends with
    the preferred camera instead of an unconstrained option. *)
Lemma C6_other_lists_do_not_follow_the_order :
  map choice CameraStreamManager.constraintOptions'
    = [AnyCamera; AnyCamera; FrontCamera; RearCameraIdeal] /\
  ~ follows_claimed_order (map choice CameraStreamManager.constraintOptions') /\
  camera_choices "environment"
    = [RearCamera; RearCameraIdeal; RearCameraExact; FrontCamera; RearCamera] /\
  ~ follows_claimed_order (camera_choices "environment").
Proof. repeat split; try reflexivity; by intros [=]. Qed.

(** C6 (amended).  Each variant tries its own fixed list strictly in order
    and stops at the first option that works: the manager has asked for
    exactly the options up to and including the first that gives a live
    stream, and returns that stream; the widget has called [start()] for
    exactly the options up to and including the first that starts.  The
    order rear camera, ideal rear camera, front camera, unconstrained is
    that of the first version of the manager. *)
Theorem C6_options_tried_in_order_first_wins :
  follows_claimed_order (map choice CameraStreamManager.constraintOptions) /\
  (forall opts env m pre c post ts,
     CameraStreamManager.supported env = true ->
     CameraStreamManager.isInitializing m = false ->
     CameraStreamManager.stream m = None ->
     opts = pre ++ c :: post ->
     forallb CameraStreamManager.unusable
       (CameraStreamManager.responses env
          (length (CameraStreamManager.requests m)) pre) = true ->
     CameraStreamManager.getUserMedia env
       (length (CameraStreamManager.requests m) + length pre) c = Resolved ts ->
     CameraStreamManager.is_working ts = true ->
     let r := CameraStreamManager.getCameraStream opts env m in
     CameraStreamManager.requests (snd r)
       = CameraStreamManager.requests m ++ map (pair 0) (pre ++ [c]) /\
     exists s, fst r = CameraStreamManager.Finished (CameraStreamManager.Returned s) /\
               CameraStreamManager.heap (snd r) !! s = Some ts) /\
  (forall env preferredCamera j,
     j < 5 ->
     (forall i, i < j -> start_result env 1 i <> Started) ->
     start_result env 1 j = Started ->
     started (settle env preferredCamera 0 (act env preferredCamera Activate initial))
     = requested preferredCamera 1 (S j)).
Proof.
  split; [reflexivity|]. split.
  - intros opts env m pre c post ts Hs Hi Hn Hopts Hfail Hr Hw r. unfold r.
    rewrite (CameraStreamManagerFacts.first_usable_wins opts env m pre c post ts
               Hs Hi Hn Hopts Hfail Hr Hw).
    cbn [fst snd CameraStreamManager.requests CameraStreamManager.heap].
    split; [done|]. eexists. split; [done|]. by apply list_lookup_middle.
  - intros env preferredCamera j Hj Hfail Hok.
    destruct (settle_running env preferredCamera 1 [] j Hj Hfail Hok) as [x Hx].
    change (settle env preferredCamera 0 (act env preferredCamera Activate initial)
            = running preferredCamera 1 [] j x) in Hx.
    by rewrite Hx.
Qed.

Lemma C6_options_tried_in_order_first_wins_witness :
  started (settle engine_third "environment" 0
             (act engine_third "environment" Activate initial))
  = [(1, Facing "environment"); (1, FacingIdeal "environment");
     (1, FacingExact "environment")].
Proof.
  assert (H2 : 2 < 5) by lia.
  assert (Hf : forall i, i < 2 -> start_result engine_third 1 i <> Started).
  { intros [|[|i]] Hi; cbn; [done|done|lia]. }
  destruct C6_options_tried_in_order_first_wins as (_ & _ & H).
  exact (H engine_third "environment" 2 H2 Hf eq_refl).
Defined.

End ScannerClaims.

(** ** More about the stream manager *)

Module CameraStreamManagerMore.
Import CameraStreamManager CameraStreamManagerFacts.

Section Lone.
Variable opts : list MediaStreamConstraints.
Variable env : Env.

(** Either no option gives a usable stream, or some option is the first. *)
Lemma first_usable_split (cs : list MediaStreamConstraints) : forall base,
  forallb unusable (responses env base cs) = true \/
  exists pre c post ts,
    cs = pre ++ c :: post /\
    forallb unusable (responses env base pre) = true /\
    getUserMedia env (base + length pre) c = Resolved ts /\
    is_working ts = true.
Proof.
  induction cs as [|c cs IH]; intros base; [by left|].
  cbn [responses forallb].
  destruct (getUserMedia env base c) as [ts|msg] eqn:Hr; cbn [unusable].
  - destruct (is_working ts) eqn:Hw; cbn [negb andb].
    + right. exists [], c, cs, ts. cbn. rewrite Nat.add_0_r. done.
    + destruct (IH (S base)) as [Hall|(pre & c' & post & ts' & -> & Hpre & Hc & Hw')].
      * by left.
      * right. exists (c :: pre), c', post, ts'. cbn [app length responses forallb].
        rewrite Hr. cbn [unusable]. rewrite Hw, Hpre.
        replace (base + S (length pre)) with (S base + length pre) by lia. done.
  - destruct (IH (S base)) as [Hall|(pre & c' & post & ts' & -> & Hpre & Hc & Hw')].
    + by left.
    + right. exists (c :: pre), c', post, ts'. cbn [app length responses forallb].
      rewrite Hr. cbn [unusable]. rewrite Hpre.
      replace (base + S (length pre)) with (S base + length pre) by lia. done.
Qed.

Lemma getCameraStream_reuse m s :
  idle m -> stream m = Some s ->
  getCameraStream opts env m =
  (Finished (Returned s), set_usageCount (usageCount m + 1)%Z m).
Proof.
  intros Hi Hs. unfold getCameraStream. rewrite Nat.add_comm. cbn [Nat.add].
  rewrite run_alone_step by done. cbn [resume]. rewrite Hi.
  unfold acquire_or_reuse. rewrite Hs. unfold run_pair. cbn [fst snd].
  apply run_alone_finished.
Qed.

Lemma getCameraStream_unsupported m :
  idle m -> stream m = None -> supported env = false ->
  getCameraStream opts env m =
  (Finished (Threw "Camera access failed: Camera not supported in this browser"),
   set_isInitializing false m).
Proof.
  intros Hi Hs Hn. unfold getCameraStream. rewrite Nat.add_comm. cbn [Nat.add].
  rewrite run_alone_step by done. cbn [resume]. rewrite Hi.
  unfold acquire_or_reuse. rewrite Hs, Hn. unfold run_pair. cbn [fst snd].
  apply run_alone_finished.
Qed.

(** X1.  A call that runs alone from an idle manager always settles, within
    the fuel of [getCameraStream].  If it returns, what it returns is the
    held stream, counted once more, and when it had to acquire it the
    stream passed the liveness test; if it throws, the message starts
    with "Camera access failed: ", nothing is held and the count is as
    before.  Either way the busy flag is down again. *)
Theorem lone_call_settles m :
  idle m ->
  let r := getCameraStream opts env m in
  idle (snd r) /\
  ((exists s, fst r = Finished (Returned s) /\
              stream (snd r) = Some s /\
              usageCount (snd r) = (usageCount m + 1)%Z /\
              (stream m = None ->
               exists ts, heap (snd r) !! s = Some ts /\ is_working ts = true)) \/
   (exists msg, fst r = Finished (Threw ("Camera access failed: " +:+ msg)) /\
                stream m = None /\ stream (snd r) = None /\
                usageCount (snd r) = usageCount m)).
Proof.
  intros Hi r. unfold r.
  destruct (stream m) as [s|] eqn:Hs.
  { rewrite (getCameraStream_reuse m s Hi Hs). cbn. split; [done|]. left.
    exists s. by repeat split. }
  destruct (supported env) eqn:Hsup.
  2:{ rewrite (getCameraStream_unsupported m Hi Hs Hsup). cbn. split; [done|].
      right. exists "Camera not supported in this browser". by repeat split. }
  destruct (first_usable_split opts (length (requests m)))
    as [Hall|(pre & c & post & ts & Hopts & Hpre & Hc & Hw)].
  - rewrite (exhaustion opts env m Hsup Hi Hs Hall). cbn [fst snd].
    split; [done|]. right. eexists. split; [reflexivity|]. by repeat split.
  - rewrite (first_usable_wins opts env m pre c post ts Hsup Hi Hs Hopts Hpre Hc Hw).
    cbn [fst snd stream usageCount heap isInitializing]. split; [done|]. left.
    eexists. split; [done|]. split; [done|]. split; [done|].
    intros _. exists ts. split; [|done]. by apply list_lookup_middle.
Qed.

End Lone.

(** *** The count and the stream agree, in every interleaving *)

Section Counted.
Variable opts : list MediaStreamConstraints.
Variable env : Env.

Lemma counted_loop_head self i lastError m :
  stream m = None -> usageCount m = 0%Z ->
  counted (snd (loop_head opts self i lastError m)).
Proof.
  intros Hs Hc. unfold loop_head. destruct (opts !! i); cbn.
  - by split.
  - unfold after_loop. rewrite Hs. by split.
Qed.

Lemma resume_counted self k m n :
  coherent n m -> weight k <= n -> counted m ->
  counted (snd (resume opts env self k m)).
Proof.
  intros H Hk Hc.
  assert (Hnn : (0 <= usageCount m)%Z) by (by destruct H).
  destruct k as [| | |i req lastError|o]; cbn [resume]; try done.
  - destruct (isInitializing m); [done|]. unfold acquire_or_reuse.
    destruct (stream m) as [s|] eqn:Hs; cbn.
    + unfold counted. cbn. rewrite Hs. split; [done|]. lia.
    + destruct (supported env); exact Hc.
  - unfold poll. destruct (isInitializing m); [done|].
    destruct (stream m) as [s|] eqn:Hs; [done|].
    unfold acquire_or_reuse. rewrite Hs.
    destruct (supported env); exact Hc.
  - cbn in Hk. assert (n = 1) as -> by (destruct H; lia).
    assert (Hs : stream m = None) by (destruct H; auto).
    apply counted_loop_head; [done|]. by apply Hc.
  - cbn in Hk. assert (n = 1) as -> by (destruct H; lia).
    assert (Hs : stream m = None) by (destruct H; auto).
    assert (Hz : usageCount m = 0%Z) by (by apply Hc).
    destruct (requests m !! req) as [[issuer c]|]; [|done].
    destruct (getUserMedia env req c) as [ts|msg]; cbn [on_response].
    + destruct (is_working ts).
      * unfold after_loop, counted. cbn. split; [done|]. lia.
      * apply counted_loop_head; unfold discard; by cbn.
    + apply counted_loop_head; unfold discard; by rewrite Hs.
Qed.

Lemma release_counted m :
  (0 <= usageCount m)%Z -> counted m -> counted (releaseCameraStream m).
Proof.
  intros Hnn [H1 H2]. unfold releaseCameraStream, counted.
  cbn [stream usageCount set_usageCount].
  destruct (stream m) as [s|] eqn:Hs.
  - destruct (Z.eqb_spec (Z.max (usageCount m - 1) 0) 0) as [Hz|Hz].
    + cbn. done.
    + cbn. rewrite Hs. split; [done|]. intros Hm. done.
  - cbn. rewrite Hs. split; [|done]. intros _. rewrite (H1 eq_refl). done.
Qed.

Lemma act_counted a w :
  sound w -> counted (mgr w) -> counted (mgr (act opts env a w)).
Proof.
  intros Hsound Hc. destruct a as [t|]; cbn.
  - destruct (tasks w !! t) as [k|] eqn:Hk; [|done].
    pose proof (busy_lookup _ _ _ Hk) as Hle.
    pose proof (resume_counted t k (mgr w) _ Hsound Hle Hc) as H.
    by destruct (resume opts env t k (mgr w)).
  - apply release_counted; [by destruct Hsound|done].
Qed.

Lemma exec_counted sched : forall w,
  sound w -> counted (mgr w) -> counted (mgr (exec opts env sched w)).
Proof.
  induction sched as [|a sched IH]; intros w Hs Hc; [done|].
  cbn. apply IH; [by apply act_sound|by apply act_counted].
Qed.

(** X2.  Whatever calls and releases are made and however they interleave,
    a stream is held exactly when the usage count is positive; the count is
    never negative; and while it is zero no stream has a track left
    unstopped. *)
Theorem held_exactly_when_counted n sched :
  let m := mgr (exec opts env sched (start n)) in
  (stream m = None <-> usageCount m = 0%Z) /\
  (0 <= usageCount m)%Z /\
  (usageCount m = 0%Z -> open_streams (heap m) = 0).
Proof.
  intros m.
  pose proof (reachable_sound opts env n sched) as Hsound.
  assert (Hc : counted m).
  { apply exec_counted; [apply start_sound|]. by split. }
  split; [done|]. split; [by destruct Hsound|].
  intros Hz. apply Hc in Hz.
  destruct Hsound as [_ _ _ Hopen _]. fold m in Hopen.
  unfold open_streams.
  destruct (List.filter is_open (heap m)) as [|ts l] eqn:Hf; [done|].
  assert (Hin : In ts (List.filter is_open (heap m))) by (rewrite Hf; by left).
  apply filter_In in Hin as [Hin Ho].
  apply list_elem_of_In, list_elem_of_lookup in Hin as [r Hr].
  specialize (Hopen _ _ Hr Ho). congruence.
Qed.

End Counted.

(** *** Holders and releases *)

Lemma release_keeps m s :
  stream m = Some s -> (1 < usageCount m)%Z ->
  releaseCameraStream m = set_usageCount (usageCount m - 1)%Z m.
Proof.
  intros Hs Hc. unfold releaseCameraStream. cbn. rewrite Hs.
  destruct (Z.eqb_spec (Z.max (usageCount m - 1) 0) 0) as [Hz|Hz]; [lia|].
  f_equal. lia.
Qed.

Lemma release_last m s :
  stream m = Some s -> usageCount m = 1%Z ->
  releaseCameraStream m =
  {| stream := None; usageCount := 0; isInitializing := isInitializing m;
     heap := stop_all s (heap m); requests := requests m |}.
Proof.
  intros Hs Hc. unfold releaseCameraStream. cbn. rewrite Hs, Hc. reflexivity.
Qed.

Lemma release_nothing m :
  stream m = None -> usageCount m = 0%Z -> releaseCameraStream m = m.
Proof.
  intros Hs Hc. unfold releaseCameraStream. cbn. rewrite Hs, Hc.
  destruct m; cbn in *. by subst.
Qed.

Lemma release_times_S n m :
  release_times (S n) m = releaseCameraStream (release_times n m).
Proof. reflexivity. Qed.

Lemma release_times_keeps m s n : forall j,
  stream m = Some s -> usageCount m = Z.of_nat (S n) -> j <= n ->
  release_times j m = set_usageCount (Z.of_nat (S n - j)) m.
Proof.
  induction j as [|j IH]; intros Hs Hc Hj.
  - cbn [release_times Nat.iter]. rewrite Nat.sub_0_r, <- Hc. by destruct m.
  - rewrite release_times_S, IH by (done || lia).
    rewrite (release_keeps _ s); cbn; [|done|lia].
    unfold set_usageCount. cbn. f_equal. lia.
Qed.

(** X3.  With [S n] holders of the stream, the first [n] releases only
    lower the count: the stream stays held and no track is touched.  The
    release after those drops the reference and stops every track of the
    stream, and any further release changes nothing. *)
Theorem last_release_closes m s n :
  stream m = Some s -> usageCount m = Z.of_nat (S n) ->
  (forall j, j <= n ->
     stream (release_times j m) = Some s /\
     heap (release_times j m) = heap m /\
     usageCount (release_times j m) = Z.of_nat (S n - j)) /\
  stream (release_times (S n) m) = None /\
  usageCount (release_times (S n) m) = 0%Z /\
  heap (release_times (S n) m) = stop_all s (heap m) /\
  (forall j, release_times (S n + j) m = release_times (S n) m).
Proof.
  intros Hs Hc.
  assert (Hlast : release_times (S n) m =
            {| stream := None; usageCount := 0; isInitializing := isInitializing m;
               heap := stop_all s (heap m); requests := requests m |}).
  { rewrite release_times_S, (release_times_keeps m s n n Hs Hc) by lia.
    rewrite (release_last _ s); cbn; [done|done|lia]. }
  split.
  - intros j Hj. rewrite (release_times_keeps m s n j Hs Hc Hj). by cbn.
  - split; [by rewrite Hlast|]. split; [by rewrite Hlast|].
    split; [by rewrite Hlast|].
    intros j. induction j as [|j IH].
    + by rewrite Nat.add_0_r.
    + rewrite Nat.add_succ_r, release_times_S, IH, Hlast.
      by apply release_nothing.
Qed.

Lemma last_release_closes_witness :
  stream (release_times 3
            (acquire_times constraintOptions browser_ok 3 initial)) = None /\
  stream (release_times 2
            (acquire_times constraintOptions browser_ok 3 initial)) = Some 0.
Proof.
  destruct (last_release_closes
              (acquire_times constraintOptions browser_ok 3 initial) 0 2
              eq_refl eq_refl) as (Hk & Hn & _).
  split; [exact Hn|]. by destruct (Hk 2 ltac:(lia)) as (H & _).
Defined.

Section RoundTrip.
Variable opts : list MediaStreamConstraints.
Variable env : Env.

Lemma acquire_times_reuse m s k :
  idle m -> stream m = Some s ->
  acquire_times opts env k m = set_usageCount (usageCount m + Z.of_nat k)%Z m.
Proof.
  intros Hi Hs. induction k as [|k IH].
  - cbn. rewrite Z.add_0_r. by destruct m.
  - change (acquire_times opts env (S k) m)
      with (snd (getCameraStream opts env (acquire_times opts env k m))).
    rewrite IH, (getCameraStream_reuse opts env _ s); [|done|done].
    cbn. unfold set_usageCount. cbn. f_equal. lia.
Qed.

(** X4.  While a stream is held and somebody is counted, [k] further calls
    each return that stream without a hardware request, and [k] releases
    then bring the manager back to exactly the state it was in. *)
Theorem reuse_then_release_restores m s k :
  idle m -> stream m = Some s -> (0 < usageCount m)%Z ->
  let m' := acquire_times opts env k m in
  stream m' = Some s /\
  usageCount m' = (usageCount m + Z.of_nat k)%Z /\
  requests m' = requests m /\ heap m' = heap m /\
  (forall j, j < k ->
     fst (getCameraStream opts env (acquire_times opts env j m))
     = Finished (Returned s)) /\
  release_times k m' = m.
Proof.
  intros Hi Hs Hc m'. unfold m'. rewrite (acquire_times_reuse m s k Hi Hs).
  split; [done|]. split; [done|]. split; [done|]. split; [done|]. split.
  - intros j Hj. rewrite (acquire_times_reuse m s j Hi Hs).
    by rewrite (getCameraStream_reuse opts env _ s).
  - destruct k as [|k].
    { cbn. rewrite Z.add_0_r. by destruct m. }
    assert (Hn : exists n, (usageCount m + Z.of_nat (S k))%Z = Z.of_nat (S n) /\ S k <= n).
    { exists (Z.to_nat (usageCount m) + k). lia. }
    destruct Hn as (n & Hn & Hle).
    rewrite (release_times_keeps _ s n (S k)); cbn; [|done|done|done].
    unfold set_usageCount. cbn. destruct m; cbn in *. f_equal. lia.
Qed.

(** X5.  One call from an idle, empty manager followed by one release
    leaves it idle and empty again, whether the call returned or threw, and
    none of the streams the call opened has a track left unstopped. *)
Theorem acquire_release_round_trip m :
  idle m -> stream m = None -> usageCount m = 0%Z ->
  let m' := releaseCameraStream (snd (getCameraStream opts env m)) in
  stream m' = None /\ usageCount m' = 0%Z /\ idle m' /\
  take (length (heap m)) (heap m') = heap m /\
  Forall all_stopped (drop (length (heap m)) (heap m')) /\
  open_streams (heap m') = open_streams (heap m).
Proof.
  intros Hi Hs Hc m'.
  assert (Hshape : exists new, heap m' = heap m ++ new /\ Forall all_stopped new /\
                     stream m' = None /\ usageCount m' = 0%Z /\ idle m').
  { unfold m'. destruct (supported env) eqn:Hsup.
    2:{ rewrite (getCameraStream_unsupported opts env m Hi Hs Hsup). cbn.
        exists []. rewrite app_nil_r. unfold releaseCameraStream. cbn.
        rewrite Hs, Hc. cbn. by repeat split. }
    destruct (first_usable_split env opts (length (requests m)))
      as [Hall|(pre & c & post & ts & Hopts & Hpre & Hg & Hw)].
    - rewrite (exhaustion opts env m Hsup Hi Hs Hall). cbn [snd].
      eexists. unfold releaseCameraStream. cbn. rewrite Hc. cbn.
      split; [reflexivity|]. split; [apply discarded_all_stopped|done].
    - rewrite (first_usable_wins opts env m pre c post ts Hsup Hi Hs Hopts Hpre Hg Hw).
      cbn [snd]. unfold releaseCameraStream. cbn. rewrite Hc. cbn.
      rewrite stop_all_new, <- app_assoc.
      eexists. split; [reflexivity|]. split; [|done].
      apply Forall_app. split; [apply discarded_all_stopped|].
      constructor; [|done]. unfold all_stopped. apply Forall_forall.
      intros t Ht. apply list_elem_of_In, in_map_iff in Ht as (t' & <- & _). done. }
  destruct Hshape as (new & Hh & Hnew & H1 & H2 & H3).
  split; [done|]. split; [done|]. split; [done|]. rewrite Hh.
  split; [by rewrite take_app_length|].
  split; [by rewrite drop_app_length|].
  rewrite open_streams_app, (open_streams_stopped _ Hnew). lia.
Qed.

End RoundTrip.

Lemma reuse_then_release_restores_witness :
  release_times 2
    (acquire_times constraintOptions browser_ok 2
       (acquire_times constraintOptions browser_ok 1 initial))
  = acquire_times constraintOptions browser_ok 1 initial.
Proof.
  by destruct (reuse_then_release_restores constraintOptions browser_ok
                 (acquire_times constraintOptions browser_ok 1 initial) 0 2
                 eq_refl eq_refl eq_refl) as (_ & _ & _ & _ & _ & H).
Defined.

Lemma acquire_release_round_trip_witness :
  stream (releaseCameraStream
            (snd (getCameraStream constraintOptions browser_ok initial))) = None /\
  open_streams (heap (releaseCameraStream
            (snd (getCameraStream constraintOptions browser_ok initial)))) = 0.
Proof.
  destruct (acquire_release_round_trip constraintOptions browser_ok initial eq_refl eq_refl eq_refl)
    as (H1 & _ & _ & _ & _ & H2).
  split; [exact H1|exact H2].
Defined.


Lemma lone_call_settles_witness :
  fst (getCameraStream constraintOptions browser_late initial)
  = Finished (Threw "Camera access failed: All camera initialization attempts failed. Last error: Permission denied").
Proof.
  destruct (lone_call_settles constraintOptions browser_late initial eq_refl)
    as [_ [(s & H & _)|(msg & H & _)]].
  - vm_compute in H. discriminate H.
  - vm_compute. reflexivity.
Defined.

End CameraStreamManagerMore.

(** ** More about the two-option stream manager *)

Module CameraStreamManagerTwoOptionsMore.
Import CameraStreamManager.
Import CameraStreamManagerTwoOptions.

Section Lone.
Variable env : Env.

Lemma primary_requested m :
  idle m -> stream m = None -> supported env = true ->
  getCameraStream env m =
  run_alone env 2 (AwaitPrimary (length (requests m)))
    (add_request (0, constraints) (set_isInitializing true m)).
Proof.
  intros Hi Hs Hsup. unfold getCameraStream. cbn [run_alone resume].
  rewrite Hi. unfold acquire_or_reuse. by rewrite Hs, Hsup.
Qed.

Lemma primary_settled m :
  run_alone env 2 (AwaitPrimary (length (requests m)))
    (add_request (0, constraints) (set_isInitializing true m)) =
  match primary env m with
  | Resolved [] =>
      run_alone env 1
        (AwaitFallback (S (length (requests m))) "No camera tracks available")
        (add_request (0, fallbackConstraints)
           (set_stream (Some (length (heap m)))
              (set_heap (heap m ++ [[]])
                 (add_request (0, constraints) (set_isInitializing true m)))))
  | Resolved (t :: ts) =>
      keep (t :: ts) (add_request (0, constraints) (set_isInitializing true m))
  | Rejected msg =>
      run_alone env 1 (AwaitFallback (S (length (requests m))) msg)
        (add_request (0, fallbackConstraints)
           (add_request (0, constraints) (set_isInitializing true m)))
  end.
Proof.
  cbn [run_alone resume requests add_request set_isInitializing].
  rewrite list_lookup_middle by done. unfold primary.
  destruct (getUserMedia env (length (requests m)) constraints) as [[|t ts]|msg].
  - cbn. by rewrite length_app, Nat.add_1_r.
  - reflexivity.
  - cbn. by rewrite length_app, Nat.add_1_r.
Qed.

Lemma fallback_settled m m1 error :
  requests m1 = requests m ++ [(0, constraints); (0, fallbackConstraints)] ->
  run_alone env 1 (AwaitFallback (S (length (requests m))) error) m1 =
  match fallback env m with
  | Resolved ts => keep ts m1
  | Rejected _ =>
      (Finished (Threw ("Camera access failed: " +:+ error)),
       set_isInitializing false m1)
  end.
Proof.
  intros Hreq. cbn [run_alone resume]. rewrite Hreq.
  replace (S (length (requests m))) with (length (requests m ++ [(0, constraints)]))
    by (rewrite length_app; cbn; lia).
  change (requests m ++ [(0, constraints); (0, fallbackConstraints)])
    with (requests m ++ [(0, constraints)] ++ [(0, fallbackConstraints)]).
  rewrite app_assoc, list_lookup_middle by done.
  unfold fallback. rewrite length_app, Nat.add_1_r.
  by destruct (getUserMedia env (S (length (requests m))) fallbackConstraints).
Qed.

(** X6.  A call that runs alone from an idle, empty manager makes one
    request, or two when the first is refused or gives a stream without
    tracks, and never more.  It throws exactly when the second request is
    refused too, and the message it throws is that of the first failure;
    what the second refusal said is lost.  The usage count is then as
    before. *)
Theorem two_option_failure_reports_the_first_error m :
  idle m -> stream m = None -> supported env = true ->
  let r := getCameraStream env m in
  let first_error :=
    match primary env m with
    | Rejected msg => Some msg
    | Resolved [] => Some "No camera tracks available"
    | Resolved (_ :: _) => None
    end in
  (length (requests (snd r)) <= length (requests m) + 2) /\
  (first_error = None -> requests (snd r) = requests m ++ [(0, constraints)]) /\
  (forall error, first_error = Some error ->
     requests (snd r) = requests m ++ [(0, constraints); (0, fallbackConstraints)]) /\
  (forall message, fst r = Finished (Threw message) ->
     exists error refusal,
       first_error = Some error /\ fallback env m = Rejected refusal /\
       message = "Camera access failed: " +:+ error /\
       usageCount (snd r) = usageCount m /\ idle (snd r)) /\
  (forall error refusal,
     first_error = Some error -> fallback env m = Rejected refusal ->
     fst r = Finished (Threw ("Camera access failed: " +:+ error))).
Proof.
  intros Hi Hs Hsup r first_error. unfold r, first_error.
  rewrite (primary_requested m Hi Hs Hsup), primary_settled.
  destruct (primary env m) as [[|t ts]|msg].
  - erewrite fallback_settled; [|by cbn; rewrite <- app_assoc].
    destruct (fallback env m) as [ts2|refusal]; cbn;
      rewrite <- ?app_assoc, ?length_app; cbn.
    + split; [lia|]. split; [done|]. split; [done|]. split; [done|].
      intros error refusal _ [=].
    + split; [lia|]. split; [done|]. split; [done|]. split.
      * intros message [= <-]. by exists "No camera tracks available", refusal.
      * by intros error refusal' [= <-] _.
  - cbn. rewrite length_app. cbn. split; [lia|]. split; [done|].
    split; [done|]. split; [done|]. by intros error refusal [=].
  - erewrite fallback_settled; [|by cbn; rewrite <- app_assoc].
    destruct (fallback env m) as [ts2|refusal]; cbn;
      rewrite <- ?app_assoc, ?length_app; cbn.
    + split; [lia|]. split; [done|]. split; [done|]. split; [done|].
      intros error refusal _ [=].
    + split; [lia|]. split; [done|]. split; [done|]. split.
      * intros message [= <-]. by exists msg, refusal.
      * by intros error refusal' [= <-] _.
Qed.

(** X7.  When the first request gives a stream without tracks and the
    second is refused, the call throws, but the trackless stream stays in
    [stream]: [isStreamActive()] is true after the failed call, and the next
    call returns that stream at once, counts it, and asks the browser for
    nothing. *)
Theorem two_option_failure_keeps_a_trackless_stream m refusal :
  idle m -> stream m = None -> supported env = true ->
  primary env m = Resolved [] -> fallback env m = Rejected refusal ->
  let r := getCameraStream env m in
  let again := getCameraStream env (snd r) in
  fst r = Finished (Threw "Camera access failed: No camera tracks available") /\
  stream (snd r) = Some (length (heap m)) /\
  heap (snd r) !! length (heap m) = Some [] /\
  usageCount (snd r) = usageCount m /\
  isStreamActive (snd r) = true /\
  fst again = Finished (Returned (length (heap m))) /\
  usageCount (snd again) = (usageCount m + 1)%Z /\
  requests (snd again) = requests (snd r).
Proof.
  intros Hi Hs Hsup Hp Hf r again. unfold again, r.
  rewrite (primary_requested m Hi Hs Hsup), primary_settled, Hp.
  erewrite fallback_settled; [|by cbn; rewrite <- app_assoc]. rewrite Hf.
  cbn [fst snd]. split; [done|]. split; [done|].
  split; [cbn; by apply list_lookup_middle|]. split; [done|]. split; [done|].
  done.
Qed.

End Lone.

Lemma two_option_failure_reports_the_first_error_witness :
  fst (getCameraStream browser_two_refusals initial)
  = Finished (Threw "Camera access failed: Permission denied").
Proof.
  destruct (two_option_failure_reports_the_first_error browser_two_refusals
              initial eq_refl eq_refl eq_refl) as (_ & _ & _ & _ & H).
  exact (H "Permission denied" "Requested device not found" eq_refl eq_refl).
Defined.

Lemma two_option_failure_keeps_a_trackless_stream_witness :
  isStreamActive (snd (getCameraStream browser_trackless initial)) = true.
Proof.
  by destruct (two_option_failure_keeps_a_trackless_stream browser_trackless
                 initial "Permission denied" eq_refl eq_refl eq_refl eq_refl
                 eq_refl) as (_ & _ & _ & _ & H & _).
Defined.

End CameraStreamManagerTwoOptionsMore.
